(** * Legal RAG pipeline: embedding selection, ingestion and the vector index

    A shallow embedding of [LegalRAGPipeline] (rag_pipeline/legal_rag_pipeline.py):
    [_load_config], [_get_default_config], [_load_legal_database],
    [_initialize_vector_store] and [_generate_embedding].

    Conventions of the embedding.
    - Python values that come out of [json.load] are the inductive [value];
      a Python [str] is its sequence of code points, so that [len] counts
      characters.
    - A method is a computation in the monad [M]: it threads the object
      ([self]) and the records sent to the module logger, and either
      returns or raises.  State changes made before an exception stay, as
      they do in Python.
    - a numpy array of floats is its element type (float32 or float64) and
      the list of its elements as real numbers: arithmetic is exact, rounding
      is not represented.
    - Embedding models are opaque: a handle carries the function from a text
      to a vector (or an exception) that invoking the model computes. *)

From Stdlib Require Import String Ascii.
From Stdlib Require Import List ZArith QArith Reals Lra Lia Bool Arith Permutation Sorted.
Import ListNotations.

Set Warnings "-register-all".
Close Scope Q_scope.
Close Scope R_scope.
Open Scope nat_scope.

Set Implicit Arguments.

(** ** Python values *)

(** A [str]: the list of its code points. *)
Definition pystr := list N.

(** A string literal of the source. *)
Definition py (s : string) : pystr := map N_of_ascii (list_ascii_of_string s).

Fixpoint pystr_eqb (a b : pystr) : bool :=
  match a, b with
  | [], [] => true
  | x :: a', y :: b' => N.eqb x y && pystr_eqb a' b'
  | _, _ => false
  end.

(** What [json.load] returns.  A [VDict] lists the items of the dict in
    insertion order; a key is looked up from the front. *)
Inductive value : Type :=
| VNone
| VBool (b : bool)
| VInt (z : Z)
| VFloat (q : Q)
| VStr (s : pystr)
| VList (elements : list value)
| VDict (items : list (pystr * value)).

Inductive exn : Type :=
| TypeError
| AttributeError
| KeyError
| ValueError
| FileNotFoundError
| NotADirectoryError
| PyException (name : string).

Inductive result (A : Type) : Type :=
| Ok (a : A)
| Raise (e : exn).
Arguments Ok {A} a.
Arguments Raise {A} e.

Fixpoint lookup (key : pystr) (items : list (pystr * value)) : option value :=
  match items with
  | [] => None
  | (k, v) :: rest => if pystr_eqb k key then Some v else lookup key rest
  end.

(** [obj.get(key, default)]: only a dict has the method. *)
Definition dict_get (obj : value) (key : pystr) (default : value) : result value :=
  match obj with
  | VDict items =>
      match lookup key items with
      | Some v => Ok v
      | None => Ok default
      end
  | _ => Raise AttributeError
  end.

(** [obj[key]] for a string key. *)
Definition subscript (obj : value) (key : pystr) : result value :=
  match obj with
  | VDict items =>
      match lookup key items with
      | Some v => Ok v
      | None => Raise KeyError
      end
  | _ => Raise TypeError
  end.

(** [len(obj)]. *)
Definition len (obj : value) : result nat :=
  match obj with
  | VStr s => Ok (length s)
  | VList l => Ok (length l)
  | VDict items => Ok (length items)
  | _ => Raise TypeError
  end.

(** The elements a [for] loop over [obj] visits. *)
Definition iter (obj : value) : result (list value) :=
  match obj with
  | VList l => Ok l
  | VDict items => Ok (map (fun kv => VStr (fst kv)) items)
  | VStr s => Ok (map (fun c => VStr [c]) s)
  | _ => Raise TypeError
  end.

(** ** Vectors *)

(** The element type of an array.  [np.zeros] and mixed matrices are
    float64; faiss works on float32 only. *)
Inductive dtype : Type := float32 | float64.

Definition is_float32 (t : dtype) : bool :=
  match t with
  | float32 => true
  | float64 => false
  end.

Record ndarray : Type := mk_ndarray {
  element_type : dtype;
  elements : list R
}.

Coercion elements : ndarray >-> list.

(** A float32 array, as the embedding models return. *)
Definition float32_array (l : list R) : ndarray :=
  {| element_type := float32; elements := l |}.

(** [np.zeros(n)]: float64 zeros. *)
Definition np_zeros (n : nat) : ndarray :=
  {| element_type := float64; elements := repeat 0%R n |}.

Definition astype (t : dtype) (v : ndarray) : ndarray :=
  {| element_type := t; elements := elements v |}.

(** Squared Euclidean norm, norm and inner product. *)
Definition sum_squares (l : list R) : R := fold_right (fun x acc => (x * x + acc)%R) 0%R l.

Definition norm2 (v : ndarray) : R := sum_squares (elements v).


Fixpoint inner (u v : list R) : R :=
  match u, v with
  | x :: u', y :: v' => (x * y + inner u' v')%R
  | _, _ => 0%R
  end.

Definition dot (u v : ndarray) : R := inner (elements u) (elements v).

(** One row of [faiss.normalize_L2]: a row of positive norm is multiplied by
    the inverse of its norm, an all-zero row is left as it is. *)
Definition normalize_row (v : ndarray) : ndarray :=
  if Rlt_dec 0 (norm2 v)
  then {| element_type := element_type v;
          elements := map (fun x => (x * (1 / sqrt (norm2 v)))%R) (elements v) |}
  else v.

(** [faiss.normalize_L2(x)], in place on a float32 matrix; a matrix of
    another element type is refused with a [TypeError]. *)
Definition normalize_L2 (x : list ndarray) : result (list ndarray) :=
  if forallb (fun row => is_float32 (element_type row)) x
  then Ok (map normalize_row x)
  else Raise TypeError.

(** The element type of [np.array(rows)]: float32 when every row is, float64
    as soon as one row is. *)
Definition promote (rows : list ndarray) : dtype :=
  if forallb (fun row => is_float32 (element_type row)) rows then float32 else float64.

(** [np.array(rows)] for a list of one-dimensional arrays: a matrix of the
    promoted element type when the rows have one length; ragged rows make
    the method that builds the matrix raise. *)
Definition np_array (rows : list ndarray) : result (list ndarray) :=
  match rows with
  | [] => Ok []
  | r :: rest =>
      if forallb (fun r' : ndarray => Nat.eqb (length r') (length r)) rest
      then Ok (map (astype (promote rows)) rows)
      else Raise ValueError
  end.

(** [x.shape[1]] of a non-empty matrix. *)
Definition shape1 (x : list ndarray) : nat :=
  match x with
  | [] => 0
  | r :: _ => length r
  end.

(** [faiss.IndexFlatIP]: the dimension and the stored rows, in insertion
    order. *)
Record IndexFlatIP : Type := mkIndexFlatIP {
  d : nat;
  xb : list ndarray
}.

Definition IndexFlatIP_new (dimension : nat) : IndexFlatIP :=
  {| d := dimension; xb := [] |}.

Definition ntotal (index : IndexFlatIP) : nat := length (xb index).

Definition index_add (index : IndexFlatIP) (x : list ndarray) : IndexFlatIP :=
  {| d := d index; xb := xb index ++ x |}.

(** ** The objects of the pipeline *)

Record LegalDocument : Type := mkLegalDocument {
  content : value;
  metadata : value;
  jurisdiction : value;
  legal_domain : value;
  language : value;
  embedding : option ndarray
}.

Definition set_embedding (doc : LegalDocument) (e : ndarray) : LegalDocument :=
  {| content := content doc; metadata := metadata doc;
     jurisdiction := jurisdiction doc; legal_domain := legal_domain doc;
     language := language doc; embedding := Some e |}.

(** The general-purpose model: [encode text normalize_embeddings]. *)
Record SentenceTransformer : Type := mkSentenceTransformer {
  encode : value -> bool -> result ndarray
}.

(** Modelled from the spec: [_generate_legal_bert_embedding] is called by
    [_generate_embedding] and is not part of the source.  The spec gives
    each model handle an operation [embed(text) -> vector]; the handle of
    the legal BERT model carries that operation. *)
Record AutoModel : Type := mkAutoModel {
  _generate_legal_bert_embedding : value -> result ndarray
}.

(** The fields of [self] that the modelled methods read or write.  A model
    that is not loaded is [None]; a loaded model is an object that counts
    as true in a condition. *)
Record pipeline : Type := mkPipeline {
  config : value;
  embeddings_model : option SentenceTransformer;
  legal_bert_model : option AutoModel;
  vector_store : option IndexFlatIP;
  legal_documents : list LegalDocument
}.

Definition set_vector_store (p : pipeline) (vs : option IndexFlatIP) : pipeline :=
  {| config := config p; embeddings_model := embeddings_model p;
     legal_bert_model := legal_bert_model p; vector_store := vs;
     legal_documents := legal_documents p |}.

Definition set_legal_documents (p : pipeline) (docs : list LegalDocument) : pipeline :=
  {| config := config p; embeddings_model := embeddings_model p;
     legal_bert_model := legal_bert_model p; vector_store := vector_store p;
     legal_documents := docs |}.

(** ** Logging *)

Inductive level : Type := INFO | WARNING | ERROR.

Inductive message : Type :=
| MsgConfigNotFound (config_path : pystr)
| MsgInitializing
| MsgDocsDirNotFound
| MsgLoadingFrom (dir_name : pystr)
| MsgErrorLoading (json_file : pystr) (e : exn)
| MsgLoaded (document_count : nat)
| MsgNoDocuments
| MsgNoValidEmbeddings
| MsgVectorStoreReady (count : nat)
| MsgNoEmbeddingModel.

Definition log_record : Type := level * message.

(** ** The monad of methods *)

Record state : Type := mkState {
  self : pipeline;
  logger : list log_record
}.

Definition M (S A : Type) : Type := S -> result A * S.

Definition ret {S A} (a : A) : M S A := fun s => (Ok a, s).

Definition bind {S A B} (m : M S A) (k : A -> M S B) : M S B :=
  fun s =>
    match m s with
    | (Ok a, s') => k a s'
    | (Raise e, s') => (Raise e, s')
    end.

Declare Scope monad_scope.
Delimit Scope monad_scope with monad.
Notation "x <- m ;; k" := (bind m (fun x => k))
  (at level 61, m at next level, right associativity) : monad_scope.
Notation "m ;; k" := (bind m (fun _ => k))
  (at level 61, right associativity) : monad_scope.
Local Open Scope monad_scope.

(** The outcome of a call that touches no state. *)
Definition call {S A} (r : result A) : M S A := fun s => (r, s).

Definition raise {S A} (e : exn) : M S A := call (Raise e).

(** [try: body except <catches>: handler]. *)
Definition try_except {S A} (body : M S A) (catches : exn -> bool)
    (handler : exn -> M S A) : M S A :=
  fun s =>
    match body s with
    | (Ok a, s') => (Ok a, s')
    | (Raise e, s') => if catches e then handler e s' else (Raise e, s')
    end.

Fixpoint for_each {S A} (xs : list A) (body : A -> M S unit) : M S unit :=
  match xs with
  | [] => ret tt
  | x :: rest => body x ;; for_each rest body
  end.

Definition get_self : M state pipeline := fun s => (Ok (self s), s).

Definition modify_self (f : pipeline -> pipeline) : M state unit :=
  fun s => (Ok tt, {| self := f (self s); logger := logger s |}).

Definition log (l : level) (m : message) : M state unit :=
  fun s => (Ok tt, {| self := self s; logger := logger s ++ [(l, m)] |}).

(** A method body with one local counter: the counter lives beside the
    state, so that an increment made before an exception is kept. *)
Definition lift {A} (m : M state A) : M (state * nat) A :=
  fun sc =>
    match m (fst sc) with
    | (r, s') => (r, (s', snd sc))
    end.

Definition get_count : M (state * nat) nat := fun sc => (Ok (snd sc), sc).

Definition incr_count : M (state * nat) unit := fun sc => (Ok tt, (fst sc, S (snd sc))).

Definition with_count {A} (init : nat) (m : M (state * nat) A) : M state A :=
  fun s =>
    match m (s, init) with
    | (r, (s', _)) => (r, s')
    end.

(** ** Configuration *)

Definition is_FileNotFoundError (e : exn) : bool :=
  match e with
  | FileNotFoundError => true
  | _ => false
  end.

Definition _get_default_config : value :=
  VDict [
    (py "embeddings", VDict [
      (py "model_name", VStr (py "sentence-transformers/all-MiniLM-L6-v2"));
      (py "legal_model_name", VStr (py "nlpaueb/legal-bert-base-uncased"));
      (py "dimension", VInt 384);
      (py "batch_size", VInt 32) ]);
    (py "whisper", VDict [
      (py "model_size", VStr (py "large-v3"));
      (py "language", VStr (py "multilingual"));
      (py "quality_threshold", VFloat (7 # 10)) ]);
    (py "legal_processing", VDict [
      (py "chunk_size", VInt 1000);
      (py "chunk_overlap", VInt 200);
      (py "min_relevance_score", VFloat (3 # 10));
      (py "max_retrieved_docs", VInt 5) ]);
    (py "languages", VDict [
      (py "supported", VList (map (fun s => VStr (py s))
         ["en"; "es"; "fr"; "de"; "zh"; "ar"; "hi"; "ja"; "ko"; "pt"; "it"; "ru"; "tr"]%string));
      (py "default", VStr (py "en")) ]);
    (py "nvidia_flamingo", VDict [
      (py "enabled", VBool true);
      (py "quality_fallback_threshold", VFloat (5 # 10));
      (py "cost_optimization", VBool true) ])
  ].

(** The files the pipeline reads.  [open_json path] is the outcome of
    opening [path] and parsing it with [json.load]; [legal_docs_dir] is the
    state of [models_dir / "legal_documents"]. *)
Record json_file : Type := mkJsonFile {
  file_path : pystr;
  file_load : result value
}.

Inductive dir_entry : Type :=
| Subdir (name : pystr) (json_files : list json_file)
| PlainFile (name : pystr).

Inductive path_state : Type :=
| Missing
| NotADirectory
| Directory (entries : list dir_entry).

Record filesystem : Type := mkFilesystem {
  open_json : pystr -> result value;
  legal_docs_dir : path_state
}.

Definition _load_config (fs : filesystem) (config_path : pystr) : M state value :=
  try_except
    (call (open_json fs config_path))
    is_FileNotFoundError
    (fun _ => log WARNING (MsgConfigNotFound config_path) ;; ret _get_default_config).

(** The fields of [self] as [__init__] sets them before it calls
    [_initialize_models]. *)
Definition new_pipeline (cfg : value) : pipeline :=
  {| config := cfg; embeddings_model := None; legal_bert_model := None;
     vector_store := None; legal_documents := [] |}.

(** [__init__] up to its call of [_initialize_models]: the configuration is
    loaded and the fields are set. *)
Definition init_fields (fs : filesystem) (config_path : pystr) : M state unit :=
  cfg <- _load_config fs config_path ;;
  modify_self (fun _ => new_pipeline cfg) ;;
  log INFO MsgInitializing.

(** ** The embedding selector *)

Definition _generate_embedding (text : value) : M state ndarray :=
  this <- get_self ;;
  short_legal <-
    match legal_bert_model this with
    | None => ret None
    | Some bert => n <- call (len text) ;; ret (if n <? 512 then Some bert else None)
    end ;;
  match short_legal with
  | Some bert => call (_generate_legal_bert_embedding bert text)
  | None =>
      match embeddings_model this with
      | Some model => call (encode model text true)
      | None => log ERROR MsgNoEmbeddingModel ;; ret (np_zeros 384)
      end
  end.

(** The branch of [_generate_embedding] that a call takes. *)
Inductive branch : Type := LegalBertBranch | GeneralBranch | ZeroFallbackBranch.

Definition selected_branch (this : pipeline) (text : value) : result branch :=
  match legal_bert_model this with
  | Some _ =>
      match len text with
      | Raise e => Raise e
      | Ok n =>
          if n <? 512 then Ok LegalBertBranch
          else match embeddings_model this with
               | Some _ => Ok GeneralBranch
               | None => Ok ZeroFallbackBranch
               end
      end
  | None =>
      match embeddings_model this with
      | Some _ => Ok GeneralBranch
      | None => Ok ZeroFallbackBranch
      end
  end.

(** ** Ingestion *)

(** The body of [for doc_data in documents]. *)
Definition load_record (doc_data : value) : M (state * nat) unit :=
  c <- call (dict_get doc_data (py "content") (VStr [])) ;;
  m <- call (dict_get doc_data (py "metadata") (VDict [])) ;;
  j <- call (dict_get doc_data (py "jurisdiction") (VStr (py "federal"))) ;;
  dm <- call (dict_get doc_data (py "legal_domain") (VStr (py "general"))) ;;
  lg <- call (dict_get doc_data (py "language") (VStr (py "en"))) ;;
  let legal_doc :=
    {| content := c; metadata := m; jurisdiction := j; legal_domain := dm;
       language := lg; embedding := None |} in
  e <- lift (_generate_embedding (content legal_doc)) ;;
  let legal_doc := set_embedding legal_doc e in
  lift (modify_self (fun p => set_legal_documents p (legal_documents p ++ [legal_doc]))) ;;
  incr_count.

(** The body of [for json_file in doc_type_dir.glob("*.json")]. *)
Definition load_json_file (f : json_file) : M (state * nat) unit :=
  try_except
    (documents <- call (file_load f) ;;
     records <- call (iter documents) ;;
     for_each records load_record)
    (fun _ => true)
    (fun e => lift (log ERROR (MsgErrorLoading (file_path f) e))).

(** The body of [for doc_type_dir in legal_docs_dir.iterdir()]. *)
Definition load_doc_type_dir (entry : dir_entry) : M (state * nat) unit :=
  match entry with
  | Subdir name files =>
      lift (log INFO (MsgLoadingFrom name)) ;;
      for_each files load_json_file
  | PlainFile _ => ret tt
  end.

Definition _load_legal_database (fs : filesystem) : M state unit :=
  match legal_docs_dir fs with
  | Missing => log WARNING MsgDocsDirNotFound
  | NotADirectory => raise NotADirectoryError
  | Directory entries =>
      with_count 0
        (for_each entries load_doc_type_dir ;;
         document_count <- get_count ;;
         lift (log INFO (MsgLoaded document_count)))
  end.

(** ** The vector store *)

(** [[doc.embedding for doc in docs if doc.embedding is not None]]. *)
Fixpoint present_embeddings (docs : list LegalDocument) : list ndarray :=
  match docs with
  | [] => []
  | doc :: rest =>
      match embedding doc with
      | Some e => e :: present_embeddings rest
      | None => present_embeddings rest
      end
  end.

Definition _initialize_vector_store : M state unit :=
  this <- get_self ;;
  match legal_documents this with
  | [] => log WARNING MsgNoDocuments
  | _ :: _ =>
      embeddings <- call (np_array (present_embeddings (legal_documents this))) ;;
      match embeddings with
      | [] => log ERROR MsgNoValidEmbeddings
      | _ :: _ =>
          let dimension := shape1 embeddings in
          modify_self (fun p => set_vector_store p (Some (IndexFlatIP_new dimension))) ;;
          embeddings <- call (normalize_L2 embeddings) ;;
          modify_self (fun p =>
            set_vector_store p
              (match vector_store p with
               | Some index => Some (index_add index embeddings)
               | None => None
               end)) ;;
          log INFO (MsgVectorStoreReady (length embeddings))
      end
  end.

(** Ingestion followed by the index build, steps 4 and 5 of
    [_initialize_models]. *)
Definition load_and_index (fs : filesystem) : M state unit :=
  _load_legal_database fs ;; _initialize_vector_store.

(** ** Search *)

(** Modelled from the spec: the source has no search operation.  Section 4.3
    of the spec: search normalizes the query vector and returns the [k]
    highest inner-product matches in descending score order, ties broken by
    insertion order.  The identifier of a vector is its position. *)
Fixpoint insert_ranked (x : nat * R) (ranked : list (nat * R)) : list (nat * R) :=
  match ranked with
  | [] => [x]
  | y :: rest =>
      if Rlt_dec (snd x) (snd y) then y :: insert_ranked x rest else x :: ranked
  end.

Definition rank (scored : list (nat * R)) : list (nat * R) :=
  fold_right insert_ranked [] scored.

Definition enumerate_from {A} (start : nat) (l : list A) : list (nat * A) :=
  combine (seq start (length l)) l.

Definition scores (index : IndexFlatIP) (query_vector : ndarray) : list (nat * R) :=
  enumerate_from 0 (map (dot (normalize_row query_vector)) (xb index)).

Definition search (index : IndexFlatIP) (query_vector : ndarray) (k : nat) : list (nat * R) :=
  firstn k (rank (scores index query_vector)).

(** [a] is ranked before [b]: a higher score, or an equal score and an
    earlier position. *)
Definition ranks_before (a b : nat * R) : Prop :=
  (snd b < snd a)%R \/ (snd a = snd b /\ (fst a < fst b)%nat).

(** ** The document built from a record *)

(** The value of [doc_data.get(key, default)] on a dict with these items. *)
Definition field_or (items : list (pystr * value)) (key : string) (default : value) : value :=
  match lookup (py key) items with
  | Some v => v
  | None => default
  end.

(** The [LegalDocument] that [load_record] appends for a dict record whose
    content was embedded as [e]. *)
Definition record_document (items : list (pystr * value)) (e : ndarray) : LegalDocument :=
  {| content := field_or items "content" (VStr []);
     metadata := field_or items "metadata" (VDict []);
     jurisdiction := field_or items "jurisdiction" (VStr (py "federal"));
     legal_domain := field_or items "legal_domain" (VStr (py "general"));
     language := field_or items "language" (VStr (py "en"));
     embedding := Some e |}.

Definition append_document (s : state) (doc : LegalDocument) : state :=
  {| self := set_legal_documents (self s) (legal_documents (self s) ++ [doc]);
     logger := logger s |}.

Definition append_log (s : state) (r : log_record) : state :=
  {| self := self s; logger := logger s ++ [r] |}.

Definition is_dict (v : value) : bool :=
  match v with
  | VDict _ => true
  | _ => false
  end.

Definition has_embedding (doc : LegalDocument) : Prop := embedding doc <> None.

(** [grows s s']: [s'] is [s] with documents appended, each of them with an
    embedding, and possibly more log records; nothing else differs. *)
Definition grows (s s' : state) : Prop :=
  config (self s') = config (self s)
  /\ embeddings_model (self s') = embeddings_model (self s)
  /\ legal_bert_model (self s') = legal_bert_model (self s)
  /\ vector_store (self s') = vector_store (self s)
  /\ exists new,
       legal_documents (self s') = legal_documents (self s) ++ new
       /\ Forall has_embedding new.

(** ** Reading the configuration *)

(** [cfg[section][key]]. *)
Definition config_option (cfg : value) (section key : string) : result value :=
  match subscript cfg (py section) with
  | Ok sec => subscript sec (py key)
  | Raise e => Raise e
  end.

(** ** Sample inputs *)

Definition tenant_record : value :=
  VDict [ (py "content", VStr (py "Tenant eviction notice requirements"));
          (py "jurisdiction", VStr (py "CA")) ].

Definition lease_record : value :=
  VDict [ (py "content", VStr (py "Commercial lease renewal terms"));
          (py "language", VStr (py "en")) ].

Definition empty_record : value :=
  VDict [ (py "content", VStr []); (py "jurisdiction", VStr (py "CA")) ].

Definition bare_record : value := VDict [].

Definition sample_general : SentenceTransformer :=
  {| encode := fun _ _ => Ok (float32_array [3 / 5; 4 / 5]%R) |}.

Definition sample_bert : AutoModel :=
  {| _generate_legal_bert_embedding := fun _ => Ok (float32_array [0; 1]%R) |}.

Definition no_model_state : state :=
  {| self := new_pipeline _get_default_config; logger := [] |}.

Definition general_only_state : state :=
  {| self := {| config := _get_default_config;
                embeddings_model := Some sample_general;
                legal_bert_model := None;
                vector_store := None;
                legal_documents := [] |};
     logger := [] |}.

Definition both_models_state : state :=
  {| self := {| config := _get_default_config;
                embeddings_model := Some sample_general;
                legal_bert_model := Some sample_bert;
                vector_store := None;
                legal_documents := [] |};
     logger := [] |}.



Definition long_text : pystr := repeat 97%N 600.

(** A corpus directory with one category holding the given files. *)
Definition corpus (files : list json_file) : filesystem :=
  {| open_json := fun _ => Raise FileNotFoundError;
     legal_docs_dir := Directory [Subdir (py "statutes") files] |}.

Definition file_of (name : string) (records : list value) : json_file :=
  {| file_path := py name; file_load := Ok (VList records) |}.

(** ** Ingestion of well-formed files *)

(** [counted a b]: from [a] to [b] documents were appended, and the local
    counter went up by their number. *)
Definition counted (a b : state * nat) : Prop :=
  exists new,
    legal_documents (self (fst b)) = legal_documents (self (fst a)) ++ new
    /\ snd b = snd a + length new.

(** The document stored for a JSON-object record when the content is
    embedded by the function [f]. *)
Definition document_of (f : value -> ndarray) (items : list (pystr * value)) : LegalDocument :=
  record_document items (f (field_or items "content" (VStr []))).

(** A file that parses to an array of JSON objects. *)
Definition array_file (path : pystr) (records : list (list (pystr * value))) : json_file :=
  {| file_path := path; file_load := Ok (VList (map VDict records)) |}.

(** [append_documents s docs]: [s] with [docs] appended to its documents. *)
Definition append_documents (s : state) (docs : list LegalDocument) : state :=
  {| self := set_legal_documents (self s) (legal_documents (self s) ++ docs);
     logger := logger s |}.


(** The object after a build that stored the present embeddings [rows]. *)
Definition with_index (p : pipeline) (rows : list ndarray) : pipeline :=
  set_vector_store p (Some {| d := shape1 rows; xb := map normalize_row rows |}).



(** ** Loading the embedding models *)

(** The tokenizer of the legal BERT model, an opaque object. *)
Inductive AutoTokenizer : Type := LoadedTokenizer (name : pystr).

(** What [_load_embedding_models] finds outside the object: whether the two
    model directories under [models_dir] exist, their paths as strings, and
    the outcome of each constructor of the model libraries. *)
Record model_store : Type := mkModelStore {
  general_dir_exists : bool;
  general_dir : pystr;
  SentenceTransformer_new : value -> result SentenceTransformer;
  legal_bert_dir_exists : bool;
  legal_bert_dir : pystr;
  AutoTokenizer_from_pretrained : pystr -> result AutoTokenizer;
  AutoModel_from_pretrained : pystr -> result AutoModel
}.

Inductive loader_message : Type :=
| MsgLoadedGeneralModel
| MsgUsingOnlineModel
| MsgLoadedLegalBert
| MsgLegalBertNotFound.

(** The object while its models are loaded: the fields of [pipeline], the
    attribute [legal_bert_tokenizer] (absent until it is assigned) and the
    records this method logs. *)
Record loading : Type := mkLoading {
  object : pipeline;
  legal_bert_tokenizer : option AutoTokenizer;
  loader_log : list (level * loader_message)
}.

Definition set_embeddings_model (p : pipeline) (m : SentenceTransformer) : pipeline :=
  {| config := config p; embeddings_model := Some m;
     legal_bert_model := legal_bert_model p; vector_store := vector_store p;
     legal_documents := legal_documents p |}.

Definition set_legal_bert_model (p : pipeline) (m : AutoModel) : pipeline :=
  {| config := config p; embeddings_model := embeddings_model p;
     legal_bert_model := Some m; vector_store := vector_store p;
     legal_documents := legal_documents p |}.

Definition get_object : M loading pipeline := fun l => (Ok (object l), l).

Definition modify_object (f : pipeline -> pipeline) : M loading unit :=
  fun l => (Ok tt, {| object := f (object l);
                      legal_bert_tokenizer := legal_bert_tokenizer l;
                      loader_log := loader_log l |}).

Definition set_tokenizer (t : AutoTokenizer) : M loading unit :=
  fun l => (Ok tt, {| object := object l;
                      legal_bert_tokenizer := Some t;
                      loader_log := loader_log l |}).

Definition loader_info (lv : level) (m : loader_message) : M loading unit :=
  fun l => (Ok tt, {| object := object l;
                      legal_bert_tokenizer := legal_bert_tokenizer l;
                      loader_log := loader_log l ++ [(lv, m)] |}).

Definition _load_embedding_models (env : model_store) : M loading unit :=
  (if general_dir_exists env
   then
     m <- call (SentenceTransformer_new env (VStr (general_dir env))) ;;
     modify_object (fun p => set_embeddings_model p m) ;;
     loader_info INFO MsgLoadedGeneralModel
   else
     this <- get_object ;;
     section <- call (subscript (config this) (py "embeddings")) ;;
     model_name <- call (subscript section (py "model_name")) ;;
     m <- call (SentenceTransformer_new env model_name) ;;
     modify_object (fun p => set_embeddings_model p m) ;;
     loader_info INFO MsgUsingOnlineModel) ;;
  (if legal_bert_dir_exists env
   then
     t <- call (AutoTokenizer_from_pretrained env (legal_bert_dir env)) ;;
     set_tokenizer t ;;
     m <- call (AutoModel_from_pretrained env (legal_bert_dir env)) ;;
     modify_object (fun p => set_legal_bert_model p m) ;;
     loader_info INFO MsgLoadedLegalBert
   else
     loader_info WARNING MsgLegalBertNotFound).

(** The object as [__init__] hands it to [_initialize_models]. *)
Definition fresh_loading (cfg : value) : loading :=
  {| object := new_pipeline cfg; legal_bert_tokenizer := None; loader_log := [] |}.

(** A store with a local general model and no legal BERT directory. *)
Definition sample_store : model_store :=
  {| general_dir_exists := true;
     general_dir := py "models/sentence-transformers-legal";
     SentenceTransformer_new := fun _ => Ok sample_general;
     legal_bert_dir_exists := false;
     legal_bert_dir := py "models/legal-bert-base";
     AutoTokenizer_from_pretrained := fun name => Ok (LoadedTokenizer name);
     AutoModel_from_pretrained := fun _ => Ok sample_bert |}.

(** A store with no local model at all. *)
Definition online_store : model_store :=
  {| general_dir_exists := false;
     general_dir := py "models/sentence-transformers-legal";
     SentenceTransformer_new := fun _ => Ok sample_general;
     legal_bert_dir_exists := false;
     legal_bert_dir := py "models/legal-bert-base";
     AutoTokenizer_from_pretrained := fun name => Ok (LoadedTokenizer name);
     AutoModel_from_pretrained := fun _ => Ok sample_bert |}.

(** * The model downloader

    [LegalRAGModelDownloader] (scripts/download_model.py).  What the methods
    do to the machine (files, [git], the network) is not part of the program:
    it is given by a [host], and every statement below holds for every
    host. *)

(** ** More of Python *)

(** The truth value of an object in a condition. *)
Definition truthy (v : value) : bool :=
  match v with
  | VNone => false
  | VBool b => b
  | VInt z => negb (Z.eqb z 0)
  | VFloat q => negb (Qeq_bool q 0)
  | VStr s => negb (Nat.eqb (length s) 0)
  | VList l => negb (Nat.eqb (length l) 0)
  | VDict items => negb (Nat.eqb (length items) 0)
  end.

Fixpoint starts_with (prefix s : pystr) : bool :=
  match prefix, s with
  | [], _ => true
  | p :: prefix', c :: s' => N.eqb p c && starts_with prefix' s'
  | _ :: _, [] => false
  end.

Fixpoint is_substring (needle hay : pystr) : bool :=
  starts_with needle hay
  || match hay with
     | [] => false
     | _ :: hay' => is_substring needle hay'
     end.

(** [needle in container] for a string [needle]: a substring of a string,
    an element of a list, a key of a dict. *)
Definition contains (needle : pystr) (container : value) : result bool :=
  match container with
  | VStr s => Ok (is_substring needle s)
  | VList l =>
      Ok (existsb (fun x => match x with
                            | VStr s => pystr_eqb s needle
                            | _ => false
                            end) l)
  | VDict items =>
      Ok (match lookup needle items with
          | Some _ => true
          | None => false
          end)
  | _ => Raise TypeError
  end.

(** [s.replace('-', '_')]. *)
Definition dash_to_underscore (s : pystr) : pystr :=
  map (fun c => if N.eqb c 45 then 95%N else c) s.

Definition is_CalledProcessError (e : exn) : bool :=
  match e with
  | PyException name => String.eqb name "CalledProcessError"
  | _ => false
  end.

Definition CalledProcessError : exn := PyException "CalledProcessError".

(** ** The host *)

(** [World] is the state of the machine, [Path] the type of [pathlib]
    paths.  Each field is one expression or statement of the source. *)
Record host (World Path : Type) : Type := mkHost {
  (* [path / name] *)
  joinpath : Path -> pystr -> Path;
  (* [path.exists()]: a boolean, or the [OSError] it lets through *)
  path_exists : Path -> World -> result bool;
  (* [path.mkdir(exist_ok=True)] *)
  mkdir_exist_ok : Path -> World -> result unit * World;
  (* [subprocess.run(["git", "clone", url, str(path)], check=True,
     capture_output=True)] *)
  git_clone : value -> Path -> World -> result unit * World;
  (* [any(path.iterdir())] *)
  any_iterdir : Path -> World -> result bool;
  (* [[d.name for d in path.iterdir() if d.is_dir()]] *)
  subdir_names : Path -> World -> result (list pystr);
  (* the statements inside the [try] of [_download_direct_url] *)
  direct_download : value -> Path -> World -> result unit * World;
  (* [with open(path, 'w') as f: json.dump(obj, f, indent=2)] *)
  dump_json : Path -> value -> World -> result unit * World;
  (* [str(Path().ctime())] *)
  Path_ctime : World -> result value;
  (* [str(path.absolute())] *)
  absolute_str : Path -> World -> pystr;
  (* [s.upper()] *)
  str_upper : pystr -> pystr
}.

(** ** The downloader object and its log *)

Record downloader (Path : Type) : Type := mkDownloader {
  models_dir : Path;
  models_config : list (pystr * value);
  legal_documents_config : list (pystr * value)
}.

Inductive dl_message (Path : Type) : Type :=
| DlModelNotFound (model_name : pystr)
| DlAlreadyExists (model_name : pystr)
| DlDownloading (model_name : pystr) (size : value)
| DlDescription (description : value)
| DlFailed (model_name : pystr) (e : exn)
| DlSuccess (model_name : pystr)
| DlVerificationFailed (model_name : pystr)
| DlGitCloneFailed (e : exn)
| DlApiConfigSaved (config_file : Path)
| DlSetEnvVar (env_var : value)
| DlDirectFailed (e : exn)
| DlMissingFile (file_name : pystr)
| DlDirectoryEmpty
| DlDatasetNotFound (dataset_name : pystr)
| DlDownloadingDataset (dataset : pystr) (size : value)
| DlDatasetDownloaded (dataset : pystr)
| DlDatasetFailed (dataset : pystr)
| DlDatasetError (dataset : pystr) (e : exn)
| DlDatasetsCount (success_count total : nat)
| DlCloneDatasetFailed (url : value)
| DlSettingUp
| DlEssential (model : pystr)
| DlEssentialFailed (model : pystr)
| DlOptional (model : pystr)
| DlDatabases
| DlSummarySaved (summary_file : Path)
| DlSetupComplete
| DlRunVerify
| DlPartial (success_count total : nat).

Arguments DlModelNotFound {Path} model_name.
Arguments DlAlreadyExists {Path} model_name.
Arguments DlDownloading {Path} model_name size.
Arguments DlDescription {Path} description.
Arguments DlFailed {Path} model_name e.
Arguments DlSuccess {Path} model_name.
Arguments DlVerificationFailed {Path} model_name.
Arguments DlGitCloneFailed {Path} e.
Arguments DlSetEnvVar {Path} env_var.
Arguments DlDirectFailed {Path} e.
Arguments DlMissingFile {Path} file_name.
Arguments DlDirectoryEmpty {Path}.
Arguments DlDatasetNotFound {Path} dataset_name.
Arguments DlDownloadingDataset {Path} dataset size.
Arguments DlDatasetDownloaded {Path} dataset.
Arguments DlDatasetFailed {Path} dataset.
Arguments DlDatasetError {Path} dataset e.
Arguments DlDatasetsCount {Path} success_count total.
Arguments DlCloneDatasetFailed {Path} url.
Arguments DlSettingUp {Path}.
Arguments DlEssential {Path} model.
Arguments DlEssentialFailed {Path} model.
Arguments DlOptional {Path} model.
Arguments DlDatabases {Path}.
Arguments DlSetupComplete {Path}.
Arguments DlRunVerify {Path}.
Arguments DlPartial {Path} success_count total.

(** The machine and the records logged so far. *)
Record dstate (World Path : Type) : Type := mkDstate {
  world : World;
  dlog : list (level * dl_message Path)
}.

Definition get_world {World Path} : M (dstate World Path) World :=
  fun s => (Ok (world s), s).

(** One step of the host. *)
Definition run_host {World Path A} (step : World -> result A * World) :
    M (dstate World Path) A :=
  fun s =>
    match step (world s) with
    | (r, w) => (r, {| world := w; dlog := dlog s |})
    end.

Definition dl_log {World Path} (l : level) (m : dl_message Path) :
    M (dstate World Path) unit :=
  fun s => (Ok tt, {| world := world s; dlog := dlog s ++ [(l, m)] |}).

(** A local counter beside the state, as in [lift]. *)
Definition lift_local {St A} (m : M St A) : M (St * nat) A :=
  fun sc =>
    match m (fst sc) with
    | (r, s') => (r, (s', snd sc))
    end.

Definition get_local {St} : M (St * nat) nat := fun sc => (Ok (snd sc), sc).

Definition incr_local {St} : M (St * nat) unit :=
  fun sc => (Ok tt, (fst sc, S (snd sc))).

Definition with_local {St A} (init : nat) (m : M (St * nat) A) : M St A :=
  fun s =>
    match m (s, init) with
    | (r, (s', _)) => (r, s')
    end.

(** ** The tables of [__init__] *)

Definition default_models_config : list (pystr * value) :=
  [ (py "whisper-large-v3", VDict [
       (py "url", VStr (py "https://huggingface.co/openai/whisper-large-v3"));
       (py "type", VStr (py "speech_to_text"));
       (py "size", VStr (py "3.09 GB"));
       (py "languages", VInt 99);
       (py "description", VStr (py "High-accuracy multilingual speech recognition"));
       (py "priority", VStr (py "high"));
       (py "legal_optimized", VBool true) ]);
    (py "nvidia-flamingo3", VDict [
       (py "url", VStr (py "https://api.nvidia.com/v1/models/flamingo-3"));
       (py "type", VStr (py "audio_enhancement"));
       (py "size", VStr (py "1.2 GB"));
       (py "description", VStr (py "Audio quality enhancement for poor recordings"));
       (py "priority", VStr (py "medium"));
       (py "api_based", VBool true) ]);
    (py "legal-bert-base", VDict [
       (py "url", VStr (py "https://huggingface.co/nlpaueb/legal-bert-base-uncased"));
       (py "type", VStr (py "embeddings"));
       (py "size", VStr (py "440 MB"));
       (py "description", VStr (py "Legal domain-specific BERT embeddings"));
       (py "priority", VStr (py "high"));
       (py "legal_optimized", VBool true) ]);
    (py "sentence-transformers-legal", VDict [
       (py "url", VStr (py "https://huggingface.co/sentence-transformers/all-MiniLM-L6-v2"));
       (py "type", VStr (py "embeddings"));
       (py "size", VStr (py "90 MB"));
       (py "description", VStr (py "Fast multilingual sentence embeddings"));
       (py "priority", VStr (py "high"));
       (py "multilingual", VBool true) ]);
    (py "legal-longformer", VDict [
       (py "url", VStr (py "https://huggingface.co/allenai/longformer-base-4096"));
       (py "type", VStr (py "knowledge_extraction"));
       (py "size", VStr (py "500 MB"));
       (py "description", VStr (py "Long-form legal document processing"));
       (py "priority", VStr (py "medium"));
       (py "legal_optimized", VBool true) ]);
    (py "legal-xlm-roberta", VDict [
       (py "url", VStr (py "https://huggingface.co/joelito/legal-xlm-roberta-base"));
       (py "type", VStr (py "multilingual_legal"));
       (py "size", VStr (py "1.1 GB"));
       (py "description", VStr (py "Multilingual legal text understanding"));
       (py "priority", VStr (py "high"));
       (py "languages", VInt 30);
       (py "legal_optimized", VBool true) ]);
    (py "coqui-tts-multilingual", VDict [
       (py "url", VStr (py "https://huggingface.co/coqui/XTTS-v2"));
       (py "type", VStr (py "text_to_speech"));
       (py "size", VStr (py "2.3 GB"));
       (py "description", VStr (py "High-quality multilingual TTS"));
       (py "priority", VStr (py "medium"));
       (py "languages", VInt 17) ]);
    (py "legal-ner-multilingual", VDict [
       (py "url", VStr (py "https://huggingface.co/law-ai/InLegalBERT"));
       (py "type", VStr (py "named_entity_recognition"));
       (py "size", VStr (py "400 MB"));
       (py "description", VStr (py "Legal entity recognition for intake forms"));
       (py "priority", VStr (py "high"));
       (py "legal_optimized", VBool true) ]) ].

Definition default_legal_documents_config : list (pystr * value) :=
  [ (py "us_federal_law", VDict [
       (py "url", VStr (py "https://huggingface.co/datasets/legal-ai/us-federal-statutes"));
       (py "size", VStr (py "500 MB"));
       (py "description", VStr (py "US Federal legal statutes and regulations"));
       (py "languages", VList [VStr (py "en")]) ]);
    (py "state_law_database", VDict [
       (py "url", VStr (py "https://huggingface.co/datasets/legal-ai/us-state-laws"));
       (py "size", VStr (py "1.2 GB"));
       (py "description", VStr (py "US State laws and regulations"));
       (py "languages", VList [VStr (py "en")]) ]);
    (py "multilingual_legal_corpus", VDict [
       (py "url", VStr (py "https://huggingface.co/datasets/legal-ai/multilingual-legal-texts"));
       (py "size", VStr (py "2.1 GB"));
       (py "description", VStr (py "Legal texts in 30+ languages"));
       (py "languages", VList (map (fun s => VStr (py s))
          ["en"; "es"; "fr"; "de"; "zh"; "ar"; "hi"; "ja"; "ko"]%string)) ]);
    (py "case_law_database", VDict [
       (py "url", VStr (py "https://huggingface.co/datasets/legal-ai/case-law-corpus"));
       (py "size", VStr (py "3.5 GB"));
       (py "description", VStr (py "Legal case precedents and decisions"));
       (py "languages", VList [VStr (py "en")]) ]) ].

(** [LegalRAGModelDownloader(models_dir)], given [Path(models_dir)]. *)
Definition LegalRAGModelDownloader {World Path} (h : host World Path) (dir : Path) :
    M (dstate World Path) (downloader Path) :=
  run_host (mkdir_exist_ok h dir) ;;
  ret {| models_dir := dir;
         models_config := default_models_config;
         legal_documents_config := default_legal_documents_config |}.

(** ** The methods of the downloader *)

Definition required_files : list pystr :=
  [py "config.json"; py "pytorch_model.bin"; py "tokenizer.json"].

Definition _verify_model_integrity {World Path} (h : host World Path) (model_path : Path) :
    M (dstate World Path) bool :=
  for_each required_files
    (fun file_name =>
       w <- get_world ;;
       found <- call (path_exists h (joinpath h model_path file_name) w) ;;
       if found
       then ret tt
       else dl_log WARNING (DlMissingFile file_name)) ;;
  w <- get_world ;;
  nonempty <- call (any_iterdir h model_path w) ;;
  if nonempty
  then ret true
  else dl_log ERROR DlDirectoryEmpty ;; ret false.

Definition _download_direct_url {World Path} (h : host World Path)
    (url : value) (target_path : Path) : M (dstate World Path) bool :=
  try_except
    (run_host (direct_download h url target_path) ;; ret true)
    (fun _ => true)
    (fun e => dl_log ERROR (DlDirectFailed e) ;; ret false).

Definition _download_huggingface_model {World Path} (h : host World Path)
    (model_name : pystr) (config : value) (model_path : Path) :
    M (dstate World Path) bool :=
  try_except
    (url <- call (subscript config (py "url")) ;;
     on_hub <- call (contains (py "huggingface.co") url) ;;
     if on_hub
     then
       url <- call (subscript config (py "url")) ;;
       run_host (git_clone h url model_path) ;;
       verified <- _verify_model_integrity h model_path ;;
       if verified
       then dl_log INFO (DlSuccess model_name) ;; ret true
       else dl_log ERROR (DlVerificationFailed model_name) ;; ret false
     else
       url <- call (subscript config (py "url")) ;;
       _download_direct_url h url model_path)
    is_CalledProcessError
    (fun e => dl_log ERROR (DlGitCloneFailed e) ;; ret false).

Definition _setup_api_model {World Path} (h : host World Path) (this : downloader Path)
    (model_name : pystr) (config : value) : M (dstate World Path) bool :=
  let config_file := joinpath h (models_dir this) (model_name ++ py "_config.json") in
  endpoint <- call (subscript config (py "url")) ;;
  type <- call (subscript config (py "type")) ;;
  description <- call (subscript config (py "description")) ;;
  w <- get_world ;;
  setup_date <- call (Path_ctime h w) ;;
  let env_var := VStr (dash_to_underscore (str_upper h model_name) ++ py "_API_KEY") in
  let api_config :=
    VDict [ (py "model_name", VStr model_name);
            (py "endpoint", endpoint);
            (py "type", type);
            (py "description", description);
            (py "setup_date", setup_date);
            (py "requires_api_key", VBool true);
            (py "env_var", env_var) ] in
  run_host (dump_json h config_file api_config) ;;
  dl_log INFO (DlApiConfigSaved config_file) ;;
  dl_log INFO (DlSetEnvVar env_var) ;;
  ret true.

Definition download_model {World Path} (h : host World Path) (this : downloader Path)
    (model_name : pystr) (force_download : bool) : M (dstate World Path) bool :=
  match lookup model_name (models_config this) with
  | None => dl_log ERROR (DlModelNotFound model_name) ;; ret false
  | Some model_config =>
      let model_path := joinpath h (models_dir this) model_name in
      w <- get_world ;;
      found <- call (path_exists h model_path w) ;;
      if found && negb force_download
      then dl_log INFO (DlAlreadyExists model_name) ;; ret true
      else
        size <- call (subscript model_config (py "size")) ;;
        dl_log INFO (DlDownloading model_name size) ;;
        description <- call (subscript model_config (py "description")) ;;
        dl_log INFO (DlDescription description) ;;
        try_except
          (api_based <- call (dict_get model_config (py "api_based") (VBool false)) ;;
           if truthy api_based
           then _setup_api_model h this model_name model_config
           else _download_huggingface_model h model_name model_config model_path)
          (fun _ => true)
          (fun e => dl_log ERROR (DlFailed model_name e) ;; ret false)
  end.

Definition _download_huggingface_dataset {World Path} (h : host World Path)
    (url : value) (target_path : Path) : M (dstate World Path) bool :=
  try_except
    (run_host (git_clone h url target_path) ;; ret true)
    is_CalledProcessError
    (fun _ => dl_log ERROR (DlCloneDatasetFailed url) ;; ret false).

(** The body of [for dataset in datasets_to_download]. *)
Definition download_dataset {World Path} (h : host World Path) (this : downloader Path)
    (dataset : pystr) : M (dstate World Path * nat) unit :=
  config <- call (subscript (VDict (legal_documents_config this)) dataset) ;;
  let dataset_path := joinpath h (joinpath h (models_dir this) (py "legal_documents")) dataset in
  size <- call (subscript config (py "size")) ;;
  lift_local (dl_log INFO (DlDownloadingDataset dataset size)) ;;
  try_except
    (url <- call (subscript config (py "url")) ;;
     ok <- lift_local (_download_huggingface_dataset h url dataset_path) ;;
     if ok
     then lift_local (dl_log INFO (DlDatasetDownloaded dataset)) ;; incr_local
     else lift_local (dl_log ERROR (DlDatasetFailed dataset)))
    (fun _ => true)
    (fun e => lift_local (dl_log ERROR (DlDatasetError dataset e))).

Definition datasets_to_download {Path} (this : downloader Path) (dataset_name : pystr) :
    list pystr :=
  if pystr_eqb dataset_name (py "all")
  then map fst (legal_documents_config this)
  else match lookup dataset_name (legal_documents_config this) with
       | Some _ => [dataset_name]
       | None => []
       end.

Definition download_legal_documents {World Path} (h : host World Path)
    (this : downloader Path) (dataset_name : pystr) : M (dstate World Path) bool :=
  match datasets_to_download this dataset_name with
  | [] => dl_log ERROR (DlDatasetNotFound dataset_name) ;; ret false
  | datasets =>
      with_local 0
        (for_each datasets (download_dataset h this) ;;
         success_count <- get_local ;;
         lift_local (dl_log INFO (DlDatasetsCount success_count (length datasets))) ;;
         ret (Nat.eqb success_count (length datasets)))
  end.

(** The scan of [_create_setup_summary]: the configured models whose
    directory exists, API-based ones apart. *)
Fixpoint scan_models {World Path} (h : host World Path) (this : downloader Path) (w : World)
    (names : list pystr) (api_models downloaded_models : list value) :
    result (list value * list value) :=
  match names with
  | [] => Ok (api_models, downloaded_models)
  | model_name :: rest =>
      match path_exists h (joinpath h (models_dir this) model_name) w with
      | Raise e => Raise e
      | Ok true =>
          match subscript (VDict (models_config this)) model_name with
          | Raise e => Raise e
          | Ok entry =>
              match dict_get entry (py "api_based") (VBool false) with
              | Raise e => Raise e
              | Ok api_based =>
                  if truthy api_based
                  then scan_models h this w rest (api_models ++ [VStr model_name])
                         downloaded_models
                  else scan_models h this w rest api_models
                         (downloaded_models ++ [VStr model_name])
              end
          end
      | Ok false => scan_models h this w rest api_models downloaded_models
      end
  end.

Definition _create_setup_summary {World Path} (h : host World Path) (this : downloader Path) :
    M (dstate World Path) unit :=
  w <- get_world ;;
  setup_date <- call (Path_ctime h w) ;;
  let models_directory := VStr (absolute_str h (models_dir this) w) in
  scanned <- call (scan_models h this w (map fst (models_config this)) [] []) ;;
  let legal_docs_path := joinpath h (models_dir this) (py "legal_documents") in
  found <- call (path_exists h legal_docs_path w) ;;
  legal_datasets <-
    (if found
     then names <- call (subdir_names h legal_docs_path w) ;;
          ret (map VStr names)
     else ret []) ;;
  let setup_info :=
    VDict [ (py "setup_date", setup_date);
            (py "models_directory", models_directory);
            (py "downloaded_models", VList (snd scanned));
            (py "api_models", VList (fst scanned));
            (py "legal_datasets", VList legal_datasets);
            (py "total_size_gb", VInt 0) ] in
  let summary_file := joinpath h (models_dir this) (py "setup_summary.json") in
  run_host (dump_json h summary_file setup_info) ;;
  dl_log INFO (DlSummarySaved summary_file).

Definition essential_models : list pystr :=
  [ py "whisper-large-v3"; py "legal-bert-base"; py "sentence-transformers-legal";
    py "legal-xlm-roberta"; py "legal-ner-multilingual" ].

Definition optional_models : list pystr :=
  [ py "nvidia-flamingo3"; py "legal-longformer"; py "coqui-tts-multilingual" ].

Definition download_essential {World Path} (h : host World Path) (this : downloader Path)
    (model : pystr) : M (dstate World Path * nat) unit :=
  lift_local (dl_log INFO (DlEssential model)) ;;
  ok <- lift_local (download_model h this model false) ;;
  if ok
  then incr_local
  else lift_local (dl_log ERROR (DlEssentialFailed model)).

Definition download_optional {World Path} (h : host World Path) (this : downloader Path)
    (model : pystr) : M (dstate World Path * nat) unit :=
  lift_local (dl_log INFO (DlOptional model)) ;;
  lift_local (download_model h this model false) ;;
  ret tt.

Definition setup_legal_rag_pipeline {World Path} (h : host World Path)
    (this : downloader Path) : M (dstate World Path) bool :=
  dl_log INFO DlSettingUp ;;
  with_local 0
    (let total_models := length essential_models in
     for_each essential_models (download_essential h this) ;;
     for_each optional_models (download_optional h this) ;;
     lift_local (dl_log INFO DlDatabases) ;;
     lift_local (download_legal_documents h this (py "multilingual_legal_corpus")) ;;
     lift_local (download_legal_documents h this (py "us_federal_law")) ;;
     lift_local (_create_setup_summary h this) ;;
     success_count <- get_local ;;
     if Nat.eqb success_count total_models
     then
       lift_local (dl_log INFO DlSetupComplete) ;;
       lift_local (dl_log INFO DlRunVerify) ;;
       ret true
     else
       lift_local (dl_log WARNING (DlPartial success_count total_models)) ;;
       ret false).

(** ** What the dataset loop amounts to *)

(** The clones that [download_legal_documents] runs for [names], one after
    the other on the machine the previous one left: the number that
    succeeded and the machine at the end. *)
Fixpoint clone_datasets {World Path} (h : host World Path) (this : downloader Path)
    (names : list pystr) (w : World) : nat * World :=
  match names with
  | [] => (0, w)
  | dataset :: rest =>
      match lookup dataset (legal_documents_config this) with
      | Some config =>
          match subscript config (py "url") with
          | Ok url =>
              let dataset_path :=
                joinpath h (joinpath h (models_dir this) (py "legal_documents")) dataset in
              match git_clone h url dataset_path w with
              | (Ok _, w') =>
                  (S (fst (clone_datasets h this rest w')),
                   snd (clone_datasets h this rest w'))
              | (Raise _, w') => clone_datasets h this rest w'
              end
          | Raise _ => clone_datasets h this rest w
          end
      | None => clone_datasets h this rest w
      end
  end.

(** The entry of [dataset] can be logged and cloned: it has a size and a
    url. *)
Definition dataset_ready {Path} (this : downloader Path) (dataset : pystr) : Prop :=
  exists config size url,
    lookup dataset (legal_documents_config this) = Some config
    /\ subscript config (py "size") = Ok size
    /\ subscript config (py "url") = Ok url.

(** ** A small machine for examples *)

(** The world is the list of the paths that exist; a path is its string. *)
Definition toy_join (a b : pystr) : pystr := a ++ py "/" ++ b.

Definition toy_exists (p : pystr) (w : list pystr) : bool := existsb (pystr_eqb p) w.

Definition ascii_upper (s : pystr) : pystr :=
  map (fun c => if (N.leb 97 c && N.leb c 122)%bool then (c - 32)%N else c) s.

(** [git] clones into a path that does not exist yet and fails on one that
    does; [Path] has no [ctime]. *)
Definition toy_host : host (list pystr) pystr :=
  {| joinpath := toy_join;
     path_exists := fun p w => Ok (toy_exists p w);
     mkdir_exist_ok := fun p w => (Ok tt, p :: w);
     git_clone := fun _ p w =>
       if toy_exists p w
       then (Raise CalledProcessError, w)
       else (Ok tt, toy_join p (py "README.md") :: p :: w);
     any_iterdir := fun p w =>
       if toy_exists p w
       then Ok (existsb (starts_with (p ++ py "/")) w)
       else Raise FileNotFoundError;
     subdir_names := fun _ _ => Ok [];
     direct_download := fun _ p w => (Ok tt, toy_join p (py "model.bin") :: p :: w);
     dump_json := fun p _ w => (Ok tt, p :: w);
     Path_ctime := fun _ => Raise AttributeError;
     absolute_str := fun p _ => p;
     str_upper := ascii_upper |}.

Definition toy_downloader : downloader pystr :=
  {| models_dir := py "models";
     models_config := default_models_config;
     legal_documents_config := default_legal_documents_config |}.

Definition toy_start : dstate (list pystr) pystr :=
  {| world := [py "models"]; dlog := [] |}.

(** The host [h] with its direct download replaced by [dd]. *)
Definition with_direct_download {World Path} (h : host World Path)
    (dd : value -> Path -> World -> result unit * World) : host World Path :=
  {| joinpath := joinpath h;
     path_exists := path_exists h;
     mkdir_exist_ok := mkdir_exist_ok h;
     git_clone := git_clone h;
     any_iterdir := any_iterdir h;
     subdir_names := subdir_names h;
     direct_download := dd;
     dump_json := dump_json h;
     Path_ctime := Path_ctime h;
     absolute_str := absolute_str h;
     str_upper := str_upper h |}.

(** * Properties *)

(** ** The monad *)

Lemma bind_ok {S A B} (m : M S A) (k : A -> M S B) s a s' :
  m s = (Ok a, s') -> bind m k s = k a s'.
Proof. intros H. unfold bind. rewrite H. reflexivity. Qed.

Lemma bind_raise {S A B} (m : M S A) (k : A -> M S B) s e s' :
  m s = (Raise e, s') -> bind m k s = (Raise e, s').
Proof. intros H. unfold bind. rewrite H. reflexivity. Qed.

Lemma for_each_app {S A} (xs ys : list A) (body : A -> M S unit) s s' :
  for_each xs body s = (Ok tt, s') ->
  for_each (xs ++ ys) body s = for_each ys body s'.
Proof.
  revert s. induction xs as [|x xs IH]; intros s H; simpl in *.
  - unfold ret in H. inversion H. reflexivity.
  - unfold bind in *. destruct (body x s) as [[[]|e] s1]; [|discriminate].
    apply IH. exact H.
Qed.

Lemma for_each_raise {S A} (xs ys : list A) (x : A) (body : A -> M S unit) s s1 e s2 :
  for_each xs body s = (Ok tt, s1) ->
  body x s1 = (Raise e, s2) ->
  for_each (xs ++ x :: ys) body s = (Raise e, s2).
Proof.
  intros Hxs Hx. rewrite (@for_each_app _ _ xs (x :: ys) body s s1 Hxs). simpl.
  apply bind_raise. exact Hx.
Qed.

(** ** The embedding selector *)

(** The cases of [_generate_embedding]: which models are loaded, whether
    [len] raises, and on which side of 512 the length falls. *)
Ltac embedding_cases s text :=
  unfold _generate_embedding, bind, get_self, call, ret, log;
  destruct (legal_bert_model (self s)) as [?bert|];
  [ destruct (len text) as [?n|?e]; simpl;
    [ match goal with |- context [?n <? 512] => destruct (n <? 512) end; simpl;
      [ | destruct (embeddings_model (self s)); simpl ]
    | ]
  | simpl; destruct (embeddings_model (self s)); simpl ].

(** [_generate_embedding] only ever appends to the log; the object is left
    as it was. *)
Lemma generate_embedding_keeps_self (text : value) (s : state) :
  self (snd (_generate_embedding text s)) = self s.
Proof.
  embedding_cases s text; reflexivity.
Qed.

(** The result of [_generate_embedding], read off the branch it takes. *)
Lemma generate_embedding_by_branch (text : value) (s : state) :
  fst (_generate_embedding text s) =
    match selected_branch (self s) text with
    | Raise e => Raise e
    | Ok LegalBertBranch =>
        match legal_bert_model (self s) with
        | Some bert => _generate_legal_bert_embedding bert text
        | None => Ok (np_zeros 384)
        end
    | Ok GeneralBranch =>
        match embeddings_model (self s) with
        | Some model => encode model text true
        | None => Ok (np_zeros 384)
        end
    | Ok ZeroFallbackBranch => Ok (np_zeros 384)
    end.
Proof.
  unfold selected_branch. embedding_cases s text; reflexivity.
Qed.

(** C2: for a text (a [str]), the legal BERT model is used when it is loaded
    and the text has fewer than 512 characters; otherwise the general model
    is used when it is loaded.  Selecting a model touches neither the object
    nor the log. *)
Theorem generate_embedding_priority :
  forall (s : state) (text : pystr),
    (forall bert,
        legal_bert_model (self s) = Some bert ->
        length text < 512 ->
        _generate_embedding (VStr text) s =
          (_generate_legal_bert_embedding bert (VStr text), s)
        /\ selected_branch (self s) (VStr text) = Ok LegalBertBranch)
    /\ (forall model,
        legal_bert_model (self s) = None \/ 512 <= length text ->
        embeddings_model (self s) = Some model ->
        _generate_embedding (VStr text) s = (encode model (VStr text) true, s)
        /\ selected_branch (self s) (VStr text) = Ok GeneralBranch).
Proof.
  intros s text. split.
  - intros bert Hbert Hlen.
    apply Nat.ltb_lt in Hlen.
    unfold _generate_embedding, selected_branch, bind, get_self, call, ret.
    rewrite Hbert. simpl. rewrite Hlen. split; reflexivity.
  - intros model Hsel Hmodel.
    unfold _generate_embedding, selected_branch, bind, get_self, call, ret.
    destruct Hsel as [Hnone | Hlong].
    + rewrite Hnone, Hmodel. split; reflexivity.
    + apply Nat.ltb_ge in Hlong.
      destruct (legal_bert_model (self s)) as [bert|]; simpl.
      * rewrite Hlong, Hmodel. split; reflexivity.
      * rewrite Hmodel. split; reflexivity.
Qed.

Lemma generate_embedding_priority_witness :
  _generate_embedding (VStr (py "lease")) both_models_state =
    (Ok (float32_array [0; 1]%R), both_models_state)
  /\ _generate_embedding (VStr long_text) both_models_state =
    (Ok (float32_array [3 / 5; 4 / 5]%R), both_models_state)
  /\ _generate_embedding (VStr (py "lease")) general_only_state =
    (Ok (float32_array [3 / 5; 4 / 5]%R), general_only_state).
Proof.
  split; [|split].
  - destruct (generate_embedding_priority both_models_state (py "lease")) as [H _].
    apply (H sample_bert); [reflexivity | simpl; lia].
  - destruct (generate_embedding_priority both_models_state long_text) as [_ H].
    apply (H sample_general); [right; unfold long_text; rewrite repeat_length; lia | reflexivity].
  - destruct (generate_embedding_priority general_only_state (py "lease")) as [_ H].
    apply (H sample_general); [left; reflexivity | reflexivity].
Defined.

(** ** One record *)

Lemma load_record_dict (items : list (pystr * value)) (s s' : state) (c : nat) (e : ndarray) :
  _generate_embedding (field_or items "content" (VStr [])) s = (Ok e, s') ->
  load_record (VDict items) (s, c) =
    (Ok tt, (append_document s' (record_document items e), S c)).
Proof.
  intros H. unfold load_record, bind, call, dict_get, lift, modify_self, incr_count.
  fold (field_or items "content" (VStr [])).
  destruct (lookup (py "content") items) eqn:Hc;
  destruct (lookup (py "metadata") items) eqn:Hm;
  destruct (lookup (py "jurisdiction") items) eqn:Hj;
  destruct (lookup (py "legal_domain") items) eqn:Hd;
  destruct (lookup (py "language") items) eqn:Hl;
  cbn [content fst snd];
  unfold field_or in H; rewrite Hc in H; rewrite H; cbn [fst snd];
  unfold append_document, record_document, field_or, set_embedding;
  cbn [content metadata jurisdiction legal_domain language];
  rewrite Hc, Hm, Hj, Hd, Hl; reflexivity.
Qed.

Lemma load_record_dict_raise (items : list (pystr * value)) (s s' : state) (c : nat) (e : exn) :
  _generate_embedding (field_or items "content" (VStr [])) s = (Raise e, s') ->
  load_record (VDict items) (s, c) = (Raise e, (s', c)).
Proof.
  intros H. unfold load_record, bind, call, dict_get, lift.
  destruct (lookup (py "content") items) eqn:Hc;
  destruct (lookup (py "metadata") items);
  destruct (lookup (py "jurisdiction") items);
  destruct (lookup (py "legal_domain") items);
  destruct (lookup (py "language") items);
  cbn [content fst snd];
  unfold field_or in H; rewrite Hc in H; rewrite H; reflexivity.
Qed.

(** A record that is not a JSON object has no [get]: the first field access
    raises, and nothing has changed by then. *)
Lemma load_record_not_dict (doc_data : value) (sc : state * nat) :
  is_dict doc_data = false ->
  load_record doc_data sc = (Raise AttributeError, sc).
Proof.
  intros H. destruct doc_data; try discriminate; reflexivity.
Qed.

(** C1 (amended): with neither model loaded the embedding operation does not
    fail.  It logs the error "No embedding model available" and returns the
    all-zero vector of length 384, with no mark on the result; a record
    loaded in that state is stored with that vector as its embedding. *)
Theorem generate_embedding_no_model :
  forall (s : state) (text : value),
    legal_bert_model (self s) = None ->
    embeddings_model (self s) = None ->
    _generate_embedding text s =
      (Ok (np_zeros 384), append_log s (ERROR, MsgNoEmbeddingModel))
    /\ forall (items : list (pystr * value)) (c : nat),
         load_record (VDict items) (s, c) =
           (Ok tt,
            (append_document (append_log s (ERROR, MsgNoEmbeddingModel))
               (record_document items (np_zeros 384)),
             S c)).
Proof.
  intros s text Hbert Hgen.
  assert (Hgo : forall t, _generate_embedding t s =
            (Ok (np_zeros 384), append_log s (ERROR, MsgNoEmbeddingModel))).
  { intros t. unfold _generate_embedding, bind, get_self, ret, log.
    rewrite Hbert, Hgen. reflexivity. }
  split; [apply Hgo|].
  intros items c. apply load_record_dict. apply Hgo.
Qed.

Lemma generate_embedding_no_model_witness :
  _generate_embedding (VStr (py "lease")) no_model_state =
    (Ok (np_zeros 384), append_log no_model_state (ERROR, MsgNoEmbeddingModel)).
Proof.
  apply (generate_embedding_no_model no_model_state (VStr (py "lease")));
    reflexivity.
Defined.

(** C8: the vector and the branch taken depend on the text and on the two
    model handles only, whatever the rest of the object and the log hold;
    a call leaves the object as it was, so a second call on the state the
    first one left gives the same vector. *)
Theorem generate_embedding_deterministic :
  forall (s1 s2 : state) (text : value),
    legal_bert_model (self s1) = legal_bert_model (self s2) ->
    embeddings_model (self s1) = embeddings_model (self s2) ->
    fst (_generate_embedding text s1) = fst (_generate_embedding text s2)
    /\ selected_branch (self s1) text = selected_branch (self s2) text
    /\ fst (_generate_embedding text (snd (_generate_embedding text s1))) =
       fst (_generate_embedding text s1).
Proof.
  intros s1 s2 text Hbert Hgen.
  assert (Hbranch : forall a b text,
            legal_bert_model (self a) = legal_bert_model (self b) ->
            embeddings_model (self a) = embeddings_model (self b) ->
            fst (_generate_embedding text a) = fst (_generate_embedding text b)).
  { intros a b t Hb Hg. rewrite !generate_embedding_by_branch.
    unfold selected_branch. rewrite Hb, Hg. reflexivity. }
  split; [|split].
  - apply Hbranch; assumption.
  - unfold selected_branch. rewrite Hbert, Hgen. reflexivity.
  - apply Hbranch; rewrite generate_embedding_keeps_self; reflexivity.
Qed.

Lemma generate_embedding_deterministic_witness :
  fst (_generate_embedding (VStr (py "lease")) both_models_state) =
  fst (_generate_embedding (VStr (py "lease"))
         (append_document (append_log both_models_state (INFO, MsgDocsDirNotFound))
            (record_document [] (float32_array [1; 0]%R)))).
Proof.
  apply (generate_embedding_deterministic both_models_state
           (append_document (append_log both_models_state (INFO, MsgDocsDirNotFound))
              (record_document [] (float32_array [1; 0]%R)))
           (VStr (py "lease"))); reflexivity.
Defined.

(** ** Configuration *)

(** C9: when the configuration file does not exist, [_load_config] returns
    the built-in defaults instead of raising, after a warning, and the
    object is set up with them as its configuration: read from the object,
    at most 5 retrieved documents, minimum relevance 0.3, chunks of 1000
    with overlap 200, embedding dimension 384. *)
Theorem load_config_missing_file_defaults :
  forall (fs : filesystem) (config_path : pystr) (s : state),
    open_json fs config_path = Raise FileNotFoundError ->
    _load_config fs config_path s =
      (Ok _get_default_config, append_log s (WARNING, MsgConfigNotFound config_path))
    /\ init_fields fs config_path s =
         (Ok tt,
          {| self := new_pipeline _get_default_config;
             logger := logger s ++ [ (WARNING, MsgConfigNotFound config_path);
                                     (INFO, MsgInitializing) ] |})
    /\ config (self (snd (init_fields fs config_path s))) = _get_default_config
    /\ config_option (config (self (snd (init_fields fs config_path s))))
         "legal_processing" "max_retrieved_docs" = Ok (VInt 5)
    /\ config_option (config (self (snd (init_fields fs config_path s))))
         "legal_processing" "min_relevance_score" = Ok (VFloat (3 # 10))
    /\ config_option (config (self (snd (init_fields fs config_path s))))
         "legal_processing" "chunk_size" = Ok (VInt 1000)
    /\ config_option (config (self (snd (init_fields fs config_path s))))
         "legal_processing" "chunk_overlap" = Ok (VInt 200)
    /\ config_option (config (self (snd (init_fields fs config_path s))))
         "embeddings" "dimension" = Ok (VInt 384).
Proof.
  intros fs config_path s Hopen.
  assert (Hload : _load_config fs config_path s =
            (Ok _get_default_config, append_log s (WARNING, MsgConfigNotFound config_path))).
  { unfold _load_config, try_except, call. rewrite Hopen. reflexivity. }
  assert (Hinit : init_fields fs config_path s =
            (Ok tt,
             {| self := new_pipeline _get_default_config;
                logger := logger s ++ [ (WARNING, MsgConfigNotFound config_path);
                                        (INFO, MsgInitializing) ] |})).
  { unfold init_fields, bind. rewrite Hload.
    unfold modify_self, log, append_log. simpl. rewrite <- app_assoc. reflexivity. }
  split; [exact Hload|]. split; [exact Hinit|].
  rewrite Hinit. repeat split; reflexivity.
Qed.

Lemma load_config_missing_file_defaults_witness :
  _load_config (corpus []) (py "./config/rag_config.json") no_model_state =
    (Ok _get_default_config,
     append_log no_model_state (WARNING, MsgConfigNotFound (py "./config/rag_config.json")))
  /\ config (self (snd (init_fields (corpus []) (py "./config/rag_config.json")
                          no_model_state))) = _get_default_config.
Proof.
  destruct (@load_config_missing_file_defaults (corpus [])
              (py "./config/rag_config.json") no_model_state eq_refl)
    as (Hload & _ & Hconfig & _).
  split; [exact Hload | exact Hconfig].
Defined.

(** ** Ingestion *)

Lemma grows_refl (s : state) : grows s s.
Proof.
  repeat split. exists []. rewrite app_nil_r. split; [reflexivity | constructor].
Qed.

Lemma grows_trans (a b c : state) : grows a b -> grows b c -> grows a c.
Proof.
  intros (H1 & H2 & H3 & H4 & n1 & H5 & H6) (K1 & K2 & K3 & K4 & n2 & K5 & K6).
  repeat split; try congruence.
  exists (n1 ++ n2). split.
  - rewrite K5, H5, app_assoc. reflexivity.
  - apply Forall_app. split; assumption.
Qed.

Lemma grows_log (s : state) (r : log_record) : grows s (append_log s r).
Proof.
  repeat split. exists []. simpl. rewrite app_nil_r. split; [reflexivity | constructor].
Qed.

Lemma grows_document (s : state) (doc : LegalDocument) :
  has_embedding doc -> grows s (append_document s doc).
Proof.
  intros H. repeat split. exists [doc]. split; [reflexivity|].
  constructor; [exact H | constructor].
Qed.

Lemma generate_embedding_grows (text : value) (s : state) :
  grows s (snd (_generate_embedding text s)).
Proof.
  embedding_cases s text;
    first [apply grows_refl | apply (grows_log s)].
Qed.

(** What one record does: it raises and leaves documents and counter as
    they were, or it appends one embedded document and counts it. *)
Lemma load_record_cases (doc_data : value) (s : state) (c : nat) :
  (exists e s', load_record doc_data (s, c) = (Raise e, (s', c)) /\ grows s s'
                /\ legal_documents (self s') = legal_documents (self s))
  \/ (exists s' doc, load_record doc_data (s, c) = (Ok tt, (append_document s' doc, S c))
                /\ grows s s' /\ legal_documents (self s') = legal_documents (self s)
                /\ has_embedding doc).
Proof.
  destruct (is_dict doc_data) eqn:Hd.
  - destruct doc_data; try discriminate.
    pose proof (generate_embedding_grows (field_or items "content" (VStr [])) s) as Hg.
    pose proof (generate_embedding_keeps_self (field_or items "content" (VStr [])) s) as Hk.
    destruct (_generate_embedding (field_or items "content" (VStr [])) s) as [[e|e] s'] eqn:He.
    + right. exists s', (record_document items e). simpl in Hg, Hk.
      rewrite (@load_record_dict items s s' c e He).
      repeat split; try apply Hg; try (rewrite Hk; reflexivity). discriminate.
    + left. exists e, s'. simpl in Hg, Hk.
      rewrite (@load_record_dict_raise items s s' c e He).
      repeat split; try apply Hg. rewrite Hk. reflexivity.
  - left. exists AttributeError, s. rewrite (@load_record_not_dict _ (s, c) Hd).
    repeat split. exists []. rewrite app_nil_r. split; [reflexivity | constructor].
Qed.

Lemma load_record_grows (doc_data : value) (sc : state * nat) :
  grows (fst sc) (fst (snd (load_record doc_data sc))).
Proof.
  destruct sc as [s c].
  destruct (load_record_cases doc_data s c) as [(e & s' & H & Hg & _) | (s' & doc & H & Hg & _ & Hd)];
    rewrite H; simpl.
  - exact Hg.
  - eapply grows_trans; [exact Hg | apply grows_document; exact Hd].
Qed.

Lemma for_each_grows {A} (body : A -> M (state * nat) unit) (xs : list A) :
  (forall x sc, grows (fst sc) (fst (snd (body x sc)))) ->
  forall sc, grows (fst sc) (fst (snd (for_each xs body sc))).
Proof.
  intros Hbody. induction xs as [|x xs IH]; intros sc; simpl.
  - apply grows_refl.
  - unfold bind. pose proof (Hbody x sc) as H.
    destruct (body x sc) as [[[]|e] sc1]; simpl in *.
    + eapply grows_trans; [exact H | apply IH].
    + exact H.
Qed.

(** A file never raises: whatever goes wrong inside it is caught and
    logged. *)
Lemma load_json_file_returns (f : json_file) (sc : state * nat) :
  fst (load_json_file f sc) = Ok tt.
Proof.
  unfold load_json_file, try_except.
  destruct (bind _ _ sc) as [[[]|e] sc1]; reflexivity.
Qed.

Lemma load_json_file_grows (f : json_file) (sc : state * nat) :
  grows (fst sc) (fst (snd (load_json_file f sc))).
Proof.
  unfold load_json_file, try_except.
  assert (Hbody : grows (fst sc)
            (fst (snd ((documents <- call (file_load f) ;;
                        records <- call (iter documents) ;;
                        for_each records load_record) sc)))).
  { unfold bind, call. destruct (file_load f) as [documents|e]; [|apply grows_refl].
    destruct (iter documents) as [records|e]; [|apply grows_refl].
    apply for_each_grows. apply load_record_grows. }
  destruct (bind _ _ sc) as [[[]|e] sc1]; simpl in *.
  - exact Hbody.
  - unfold lift, log. simpl.
    eapply grows_trans; [exact Hbody | apply (grows_log (fst sc1))].
Qed.

Lemma for_each_returns {S A} (body : A -> M S unit) (xs : list A) :
  (forall x s, fst (body x s) = Ok tt) ->
  forall s, fst (for_each xs body s) = Ok tt.
Proof.
  intros Hbody. induction xs as [|x xs IH]; intros s; simpl.
  - reflexivity.
  - unfold bind. pose proof (Hbody x s) as H.
    destruct (body x s) as [[[]|e] s1]; simpl in *; [apply IH | discriminate].
Qed.

Lemma load_doc_type_dir_returns (entry : dir_entry) (sc : state * nat) :
  fst (load_doc_type_dir entry sc) = Ok tt.
Proof.
  destruct entry as [name files|name]; simpl; [|reflexivity].
  unfold bind, lift, log. simpl.
  apply for_each_returns. apply load_json_file_returns.
Qed.

Lemma load_doc_type_dir_grows (entry : dir_entry) (sc : state * nat) :
  grows (fst sc) (fst (snd (load_doc_type_dir entry sc))).
Proof.
  destruct entry as [name files|name]; simpl; [|apply grows_refl].
  unfold bind, lift, log. simpl.
  eapply grows_trans; [apply (grows_log (fst sc))|].
  apply (for_each_grows load_json_file files load_json_file_grows
           (append_log (fst sc) (INFO, MsgLoadingFrom name), snd sc)).
Qed.

Lemma load_legal_database_grows (fs : filesystem) (s : state) :
  grows s (snd (_load_legal_database fs s)).
Proof.
  unfold _load_legal_database.
  destruct (legal_docs_dir fs) as [| |entries].
  - apply (grows_log s).
  - apply grows_refl.
  - unfold with_count, bind.
    pose proof (for_each_grows load_doc_type_dir entries load_doc_type_dir_grows (s, 0)) as H.
    pose proof (for_each_returns load_doc_type_dir entries load_doc_type_dir_returns (s, 0)) as Hr.
    destruct (for_each entries load_doc_type_dir (s, 0)) as [[[]|e] [s1 c1]];
      simpl in *; [|discriminate].
    eapply grows_trans; [exact H | apply (grows_log s1)].
Qed.

(** When the corpus directory is there, loading it returns, and returns
    nothing more than [None]. *)
Lemma load_legal_database_returns (fs : filesystem) (entries : list dir_entry) (s : state) :
  legal_docs_dir fs = Directory entries ->
  fst (_load_legal_database fs s) = Ok tt.
Proof.
  intros Hd. unfold _load_legal_database. rewrite Hd.
  unfold with_count, bind.
  pose proof (for_each_returns load_doc_type_dir entries load_doc_type_dir_returns (s, 0)) as Hr.
  destruct (for_each entries load_doc_type_dir (s, 0)) as [[[]|e] [s1 c1]];
    simpl in *; [reflexivity | discriminate].
Qed.

(** C10: a record that is stored has, for each field the source record
    lacks, the fixed default: content the empty string, metadata an empty
    mapping, jurisdiction "federal", legal domain "general" and language
    "en"; a field that is present is taken as it is. *)
Theorem load_record_defaults :
  forall (items : list (pystr * value)) (s s' : state) (c : nat) (e : ndarray),
    _generate_embedding (field_or items "content" (VStr [])) s = (Ok e, s') ->
    exists doc,
      load_record (VDict items) (s, c) = (Ok tt, (append_document s' doc, S c))
      /\ embedding doc = Some e
      /\ (lookup (py "content") items = None -> content doc = VStr (py ""))
      /\ (lookup (py "metadata") items = None -> metadata doc = VDict [])
      /\ (lookup (py "jurisdiction") items = None -> jurisdiction doc = VStr (py "federal"))
      /\ (lookup (py "legal_domain") items = None -> legal_domain doc = VStr (py "general"))
      /\ (lookup (py "language") items = None -> language doc = VStr (py "en"))
      /\ (forall v, lookup (py "content") items = Some v -> content doc = v)
      /\ (forall v, lookup (py "metadata") items = Some v -> metadata doc = v)
      /\ (forall v, lookup (py "jurisdiction") items = Some v -> jurisdiction doc = v)
      /\ (forall v, lookup (py "legal_domain") items = Some v -> legal_domain doc = v)
      /\ (forall v, lookup (py "language") items = Some v -> language doc = v).
Proof.
  intros items s s' c e He.
  exists (record_document items e).
  split; [apply load_record_dict; exact He|].
  split; [reflexivity|].
  unfold record_document, field_or; cbn [content metadata jurisdiction legal_domain language].
  repeat split; intros; match goal with H : lookup _ _ = _ |- _ => rewrite H end; reflexivity.
Qed.

Lemma load_record_defaults_witness :
  exists doc,
    load_record bare_record (general_only_state, 0) =
      (Ok tt, (append_document general_only_state doc, 1))
    /\ content doc = VStr (py "")
    /\ metadata doc = VDict []
    /\ jurisdiction doc = VStr (py "federal")
    /\ legal_domain doc = VStr (py "general")
    /\ language doc = VStr (py "en").
Proof.
  destruct (@load_record_defaults [] general_only_state general_only_state 0
              (float32_array [3 / 5; 4 / 5]%R) eq_refl)
    as (doc & Hrun & _ & Hc & Hm & Hj & Hd & Hl & _).
  exists doc. split; [exact Hrun|].
  repeat split; [apply Hc | apply Hm | apply Hj | apply Hd | apply Hl]; reflexivity.
Defined.

(** C3, as stated, fails: a record with empty content is stored like any
    other record, nothing is rejected, no error is logged and nothing is
    returned. *)
Lemma empty_content_record_is_not_rejected :
  let out :=
    _load_legal_database
      (corpus [file_of "statutes/notices.json" [empty_record; tenant_record]])
      general_only_state in
  fst out = Ok tt
  /\ map content (legal_documents (self (snd out))) =
       [VStr []; VStr (py "Tenant eviction notice requirements")]
  /\ logger (snd out) = [(INFO, MsgLoadingFrom (py "statutes")); (INFO, MsgLoaded 2)].
Proof.
  repeat split; reflexivity.
Qed.

(** C3 (amended): a record with empty content is not rejected.  When its
    embedding is computed it is stored, with empty content, and counted like
    any other record, and the loop goes on with the records after it. *)
Theorem empty_content_record_is_stored :
  forall (items : list (pystr * value)) (rest : list value) (s s' : state)
         (c : nat) (e : ndarray),
    field_or items "content" (VStr []) = VStr [] ->
    _generate_embedding (VStr []) s = (Ok e, s') ->
    for_each (VDict items :: rest) load_record (s, c) =
      for_each rest load_record (append_document s' (record_document items e), S c)
    /\ content (record_document items e) = VStr []
    /\ embedding (record_document items e) = Some e.
Proof.
  intros items rest s s' c e Hempty He.
  split; [|split; [exact Hempty | reflexivity]].
  assert (Hrun : load_record (VDict items) (s, c) =
            (Ok tt, (append_document s' (record_document items e), S c))).
  { apply load_record_dict. rewrite Hempty. exact He. }
  simpl. unfold bind at 1. rewrite Hrun. reflexivity.
Qed.

Lemma empty_content_record_is_stored_witness :
  for_each [empty_record; tenant_record] load_record (general_only_state, 0) =
    for_each [tenant_record] load_record
      (append_document general_only_state
         (record_document [ (py "content", VStr []); (py "jurisdiction", VStr (py "CA")) ]
            (float32_array [3 / 5; 4 / 5]%R)), 1).
Proof.
  apply (@empty_content_record_is_stored
           [ (py "content", VStr []); (py "jurisdiction", VStr (py "CA")) ]
           [tenant_record] general_only_state general_only_state 0 (float32_array [3 / 5; 4 / 5]%R));
    reflexivity.
Defined.

(** C4, as stated, fails: the record after a malformed one in the same file
    is not ingested, and the call returns no counter.  Here the second
    record of [a.json] is a number; the lease record behind it is lost,
    while [b.json] is still loaded. *)
Lemma bad_record_drops_rest_of_file :
  let out :=
    _load_legal_database
      (corpus [ file_of "statutes/a.json" [tenant_record; VInt 7; lease_record];
                file_of "statutes/b.json" [empty_record] ])
      general_only_state in
  fst out = Ok tt
  /\ map content (legal_documents (self (snd out))) =
       [VStr (py "Tenant eviction notice requirements"); VStr []]
  /\ logger (snd out) =
       [ (INFO, MsgLoadingFrom (py "statutes"));
         (ERROR, MsgErrorLoading (py "statutes/a.json") AttributeError);
         (INFO, MsgLoaded 2) ].
Proof.
  repeat split; reflexivity.
Qed.

(** C4 (amended): an exception raised by a record is caught for the file it
    is in.  The error is logged with the path of the file, the documents
    appended before the failure stay, the records after it in that file are
    skipped, and loading goes on with the next file; a record that is not a
    JSON object is such a failure and changes nothing itself.  No failure
    counter is kept, and loading an existing corpus directory returns
    nothing. *)
Theorem failing_record_ends_its_file_only :
  forall (path : pystr) (before after : list value) (bad : value)
         (files : list json_file) (sc sc1 sc2 : state * nat) (e : exn),
    for_each before load_record sc = (Ok tt, sc1) ->
    load_record bad sc1 = (Raise e, sc2) ->
    for_each
      ({| file_path := path; file_load := Ok (VList (before ++ bad :: after)) |} :: files)
      load_json_file sc =
    for_each files load_json_file
      (append_log (fst sc2) (ERROR, MsgErrorLoading path e), snd sc2)
    /\ legal_documents (self (fst sc2)) = legal_documents (self (fst sc1))
    /\ snd sc2 = snd sc1
    /\ (is_dict bad = false -> e = AttributeError /\ sc2 = sc1)
    /\ (forall fs entries s,
          legal_docs_dir fs = Directory entries ->
          fst (_load_legal_database fs s) = Ok tt).
Proof.
  intros path before after bad files sc sc1 sc2 e Hbefore Hbad.
  split; [|split; [|split; [|split]]].
  - pose proof (@for_each_raise _ _ before after bad load_record sc sc1 e sc2
                  Hbefore Hbad) as Hloop.
    simpl. unfold bind at 1.
    unfold load_json_file, try_except, bind, call. cbn [file_load file_path iter].
    rewrite Hloop.
    unfold lift, log. destruct sc2 as [s2 c2]. reflexivity.
  - destruct sc1 as [s1 c1].
    destruct (load_record_cases bad s1 c1) as [(e' & s' & H & _ & Hdocs) | (s' & doc & H & _)];
      rewrite H in Hbad; [|discriminate].
    inversion Hbad; subst. exact Hdocs.
  - destruct sc1 as [s1 c1].
    destruct (load_record_cases bad s1 c1) as [(e' & s' & H & _ & Hdocs) | (s' & doc & H & _)];
      rewrite H in Hbad; [|discriminate].
    inversion Hbad; subst. reflexivity.
  - intros Hd. rewrite (@load_record_not_dict bad sc1 Hd) in Hbad.
    inversion Hbad; subst. split; reflexivity.
  - intros fs entries s Hd. apply (@load_legal_database_returns fs entries s Hd).
Qed.

Lemma failing_record_ends_its_file_only_witness :
  for_each
    [ file_of "statutes/a.json" [tenant_record; VInt 7; lease_record];
      file_of "statutes/b.json" [empty_record] ]
    load_json_file (general_only_state, 0) =
  for_each [ file_of "statutes/b.json" [empty_record] ] load_json_file
    (append_log
       (append_document general_only_state
          (record_document
             [ (py "content", VStr (py "Tenant eviction notice requirements"));
               (py "jurisdiction", VStr (py "CA")) ]
             (float32_array [3 / 5; 4 / 5]%R)))
       (ERROR, MsgErrorLoading (py "statutes/a.json") AttributeError), 1).
Proof.
  apply (@failing_record_ends_its_file_only (py "statutes/a.json")
           [tenant_record] [lease_record] (VInt 7)
           [ file_of "statutes/b.json" [empty_record] ]
           (general_only_state, 0)
           (append_document general_only_state
              (record_document
                 [ (py "content", VStr (py "Tenant eviction notice requirements"));
                   (py "jurisdiction", VStr (py "CA")) ]
                 (float32_array [3 / 5; 4 / 5]%R)), 1)
           (append_document general_only_state
              (record_document
                 [ (py "content", VStr (py "Tenant eviction notice requirements"));
                   (py "jurisdiction", VStr (py "CA")) ]
                 (float32_array [3 / 5; 4 / 5]%R)), 1)
           AttributeError); reflexivity.
Defined.

(** ** Norms *)





Lemma repeat_all_zero (n : nat) : Forall (fun x => x = 0%R) (repeat 0%R n).
Proof.
  induction n as [|n IH]; simpl; constructor; auto.
Qed.

Lemma np_zeros_all_zero (n : nat) : Forall (fun x => x = 0%R) (np_zeros n).
Proof.
  unfold np_zeros. cbn [elements]. apply repeat_all_zero.
Qed.



(** ** Building the index *)

Lemma astype_same (v : ndarray) : astype (element_type v) v = v.
Proof. destruct v. reflexivity. Qed.

Lemma astype_all_float32 (rows : list ndarray) :
  forallb (fun row => is_float32 (element_type row)) rows = true ->
  map (astype float32) rows = rows.
Proof.
  induction rows as [|r rows IH]; simpl; intros H.
  - reflexivity.
  - apply andb_prop in H. destruct H as [Hr Hrows].
    rewrite (IH Hrows). f_equal.
    destruct r as [[|] l]; [reflexivity | discriminate].
Qed.

Lemma shape1_astype (t : dtype) (rows : list ndarray) :
  shape1 (map (astype t) rows) = shape1 rows.
Proof. destruct rows; reflexivity. Qed.

Lemma np_array_ok (rows x : list ndarray) :
  np_array rows = Ok x -> x = map (astype (promote rows)) rows.
Proof.
  unfold np_array. destruct rows as [|r rest]; [intros H; inversion H; reflexivity|].
  destruct (forallb (fun r' : ndarray => Nat.eqb (length r') (length r)) rest);
    [congruence | discriminate].
Qed.

(** The matrix built from float32 rows is those rows, and it is normalized
    row by row; a matrix with a float64 row is refused. *)
Lemma normalize_matrix (rows x : list ndarray) :
  rows <> [] ->
  np_array rows = Ok x ->
  (forallb (fun row => is_float32 (element_type row)) rows = true
   /\ x = rows /\ normalize_L2 x = Ok (map normalize_row rows))
  \/ (forallb (fun row => is_float32 (element_type row)) rows = false
      /\ shape1 x = shape1 rows /\ x <> [] /\ normalize_L2 x = Raise TypeError).
Proof.
  intros Hne Hx. apply np_array_ok in Hx. unfold promote in Hx.
  destruct (forallb (fun row => is_float32 (element_type row)) rows) eqn:Hall.
  - left. rewrite (astype_all_float32 _ Hall) in Hx. subst x.
    split; [reflexivity|]. split; [reflexivity|].
    unfold normalize_L2. rewrite Hall. reflexivity.
  - right. subst x. split; [reflexivity|]. split; [apply shape1_astype|].
    destruct rows as [|r rows]; [contradiction|].
    split; [discriminate|]. reflexivity.
Qed.

Lemma present_embeddings_all (docs : list LegalDocument) :
  Forall has_embedding docs ->
  Forall2 (fun doc e => embedding doc = Some e) docs (present_embeddings docs).
Proof.
  induction 1 as [|doc docs Hdoc _ IH]; simpl.
  - constructor.
  - unfold has_embedding in Hdoc. destruct (embedding doc) as [e|] eqn:He; [|congruence].
    constructor; [exact He | exact IH].
Qed.

Lemma normalized_rows_parallel (docs : list LegalDocument) :
  Forall has_embedding docs ->
  Forall2
    (fun doc row => exists e, embedding doc = Some e /\ row = normalize_row e)
    docs (map normalize_row (present_embeddings docs)).
Proof.
  intros Hall. apply present_embeddings_all in Hall.
  induction Hall as [|doc e docs rows He _ IH]; simpl; constructor.
  - exists e. split; [exact He | reflexivity].
  - exact IH.
Qed.

(** The five ways [_initialize_vector_store] can go: no document, ragged
    embeddings, no embedding at all, an index built from float32 embeddings,
    and a float64 matrix refused by faiss after the empty index was
    assigned. *)
Lemma initialize_vector_store_cases (s : state) :
  let rows := present_embeddings (legal_documents (self s)) in
  (legal_documents (self s) = []
   /\ _initialize_vector_store s = (Ok tt, append_log s (WARNING, MsgNoDocuments)))
  \/ (legal_documents (self s) <> []
      /\ exists e, np_array rows = Raise e /\ _initialize_vector_store s = (Raise e, s))
  \/ (legal_documents (self s) <> [] /\ rows = []
      /\ _initialize_vector_store s = (Ok tt, append_log s (ERROR, MsgNoValidEmbeddings)))
  \/ (legal_documents (self s) <> [] /\ rows <> [] /\ np_array rows = Ok rows
      /\ forallb (fun row => is_float32 (element_type row)) rows = true
      /\ _initialize_vector_store s =
           (Ok tt,
            {| self := with_index (self s) rows;
               logger := logger s ++ [(INFO, MsgVectorStoreReady (length rows))] |}))
  \/ (legal_documents (self s) <> [] /\ rows <> []
      /\ (exists x, np_array rows = Ok x)
      /\ forallb (fun row => is_float32 (element_type row)) rows = false
      /\ _initialize_vector_store s =
           (Raise TypeError,
            {| self := set_vector_store (self s) (Some (IndexFlatIP_new (shape1 rows)));
               logger := logger s |})).
Proof.
  intros rows. subst rows.
  unfold _initialize_vector_store, bind, get_self, call, modify_self, log.
  destruct (legal_documents (self s)) as [|doc docs] eqn:Hdocs.
  - left. split; reflexivity.
  - right.
    destruct (np_array (present_embeddings (doc :: docs))) as [x|e] eqn:Hx.
    + destruct (present_embeddings (doc :: docs)) as [|r rows] eqn:Hrows.
      * right. left. inversion Hx; subst.
        repeat split; try discriminate; reflexivity.
      * right. right.
        assert (Hne : r :: rows <> []) by discriminate.
        destruct (normalize_matrix Hne Hx)
          as [(Hall & Heq & Hnorm) | (Hall & Hshape & Hxne & Hnorm)].
        -- left. subst x. rewrite Hnorm.
           repeat split; try discriminate; try exact Hx; try exact Hall.
           unfold with_index. cbn -[normalize_row].
           rewrite !length_map. reflexivity.
        -- right. split; [discriminate|]. split; [discriminate|].
           split; [exists x; reflexivity|]. split; [exact Hall|].
           destruct x as [|x0 x]; [contradiction|].
           rewrite Hnorm. rewrite <- Hshape. reflexivity.
    + left. split; [discriminate|]. exists e. split; reflexivity.
Qed.

(** What a call that builds the index leaves: the normalized embeddings that
    are present, in the order of the documents. *)
Lemma initialize_vector_store_built (s s' : state) (index : IndexFlatIP) :
  vector_store (self s) = None ->
  _initialize_vector_store s = (Ok tt, s') ->
  vector_store (self s') = Some index ->
  xb index = map normalize_row (present_embeddings (legal_documents (self s)))
  /\ d index = shape1 (present_embeddings (legal_documents (self s)))
  /\ legal_documents (self s') = legal_documents (self s).
Proof.
  intros Hnone Hrun Hsome.
  destruct (initialize_vector_store_cases s)
    as [[_ H] | [(_ & e & _ & H) | [(_ & _ & H) | [(_ & _ & _ & _ & H) | (_ & _ & _ & _ & H)]]]];
    rewrite H in Hrun; inversion Hrun; subst; clear Hrun; simpl in Hsome.
  - congruence.
  - congruence.
  - inversion Hsome; subst. simpl. repeat split.
Qed.



(** C6: when ingestion and the index build have run on an object whose
    documents all have an embedding (it has no documents when [__init__]
    starts) and the index was built, the index holds as many vectors as
    there are documents, and the vector at each position is the normalized
    embedding of the document at that position. *)
Theorem index_parallel_to_documents :
  forall (fs : filesystem) (s s' : state) (index : IndexFlatIP),
    Forall has_embedding (legal_documents (self s)) ->
    vector_store (self s) = None ->
    load_and_index fs s = (Ok tt, s') ->
    vector_store (self s') = Some index ->
    ntotal index = length (legal_documents (self s'))
    /\ Forall2
         (fun doc row => exists e, embedding doc = Some e /\ row = normalize_row e)
         (legal_documents (self s')) (xb index).
Proof.
  intros fs s s' index Hemb Hnone Hrun Hsome.
  unfold load_and_index, bind in Hrun.
  pose proof (load_legal_database_grows fs s) as Hg.
  destruct (_load_legal_database fs s) as [[[]|e] s1]; [|discriminate].
  simpl in Hg. destruct Hg as (_ & _ & _ & Hvs & new & Hdocs & Hnew).
  assert (Hall : Forall has_embedding (legal_documents (self s1))).
  { rewrite Hdocs. apply Forall_app. split; assumption. }
  assert (Hnone1 : vector_store (self s1) = None) by congruence.
  destruct (initialize_vector_store_built s1 Hnone1 Hrun Hsome) as (Hxb & _ & Hsame).
  rewrite Hsame.
  assert (Hpar : Forall2
            (fun doc row => exists e, embedding doc = Some e /\ row = normalize_row e)
            (legal_documents (self s1)) (xb index)).
  { rewrite Hxb. apply normalized_rows_parallel. exact Hall. }
  split; [|exact Hpar].
  unfold ntotal. symmetry. apply (Forall2_length Hpar).
Qed.


Lemma index_parallel_to_documents_witness :
  ntotal {| d := 2; xb := [normalize_row (float32_array [3 / 5; 4 / 5]%R); normalize_row (float32_array [3 / 5; 4 / 5]%R)] |} =
    length (legal_documents (self (snd (load_and_index
      (corpus [file_of "statutes/notices.json" [tenant_record; lease_record]])
      general_only_state))))
  /\ Forall2
       (fun doc row => exists e, embedding doc = Some e /\ row = normalize_row e)
       (legal_documents (self (snd (load_and_index
          (corpus [file_of "statutes/notices.json" [tenant_record; lease_record]])
          general_only_state))))
       [normalize_row (float32_array [3 / 5; 4 / 5]%R); normalize_row (float32_array [3 / 5; 4 / 5]%R)].
Proof.
  apply (@index_parallel_to_documents
           (corpus [file_of "statutes/notices.json" [tenant_record; lease_record]])
           general_only_state
           (snd (load_and_index
                   (corpus [file_of "statutes/notices.json" [tenant_record; lease_record]])
                   general_only_state))
           {| d := 2; xb := [normalize_row (float32_array [3 / 5; 4 / 5]%R); normalize_row (float32_array [3 / 5; 4 / 5]%R)] |}).
  - constructor.
  - reflexivity.
  - reflexivity.
  - reflexivity.
Defined.

(** C1, as stated, fails: with no model loaded the embedding operation
    returns the all-zero vector instead of raising, and ingestion returns
    with the document stored under that vector, unmarked, after one error
    record.  The index build that follows is not a guard of the selector:
    faiss refuses the float64 matrix with a [TypeError] and an empty index
    is left. *)
Lemma no_model_zero_vector_is_returned_and_stored :
  fst (_generate_embedding (VStr (py "lease")) no_model_state) = Ok (np_zeros 384)
  /\ (forall e, fst (_generate_embedding (VStr (py "lease")) no_model_state) <> Raise e)
  /\ (let out :=
        _load_legal_database (corpus [file_of "statutes/notices.json" [tenant_record]])
          no_model_state in
      fst out = Ok tt
      /\ map embedding (legal_documents (self (snd out))) = [Some (np_zeros 384)]
      /\ logger (snd out) =
           [ (INFO, MsgLoadingFrom (py "statutes"));
             (ERROR, MsgNoEmbeddingModel);
             (INFO, MsgLoaded 1) ])
  /\ (let built :=
        load_and_index (corpus [file_of "statutes/notices.json" [tenant_record]])
          no_model_state in
      fst built = Raise TypeError
      /\ map embedding (legal_documents (self (snd built))) = [Some (np_zeros 384)]
      /\ option_map ntotal (vector_store (self (snd built))) = Some 0).
Proof.
  split; [reflexivity|]. split; [intros e; discriminate|].
  split; repeat split; reflexivity.
Qed.

(** ** Search *)

Lemma insert_ranked_perm (x : nat * R) (l : list (nat * R)) :
  Permutation (insert_ranked x l) (x :: l).
Proof.
  induction l as [|y l IH]; simpl.
  - apply Permutation_refl.
  - destruct (Rlt_dec (snd x) (snd y)).
    + eapply Permutation_trans; [apply perm_skip, IH | apply perm_swap].
    + apply Permutation_refl.
Qed.

Lemma rank_perm (l : list (nat * R)) : Permutation (rank l) l.
Proof.
  induction l as [|x l IH]; simpl.
  - apply Permutation_refl.
  - eapply Permutation_trans; [apply insert_ranked_perm | apply perm_skip, IH].
Qed.

(** Inserting an entry that is earlier than every entry of a ranked list
    keeps the list ranked: on equal scores it lands in front. *)
Lemma insert_ranked_sorted (x : nat * R) (l : list (nat * R)) :
  StronglySorted ranks_before l ->
  Forall (fun y => fst x < fst y) l ->
  StronglySorted ranks_before (insert_ranked x l).
Proof.
  induction 1 as [|y l Hsorted IH Hy]; intros Hlater; simpl.
  - constructor; constructor.
  - inversion Hlater as [|y' l' Hxy Hrest]; subst.
    destruct (Rlt_dec (snd x) (snd y)) as [Hlt|Hge].
    + constructor; [apply IH; exact Hrest|].
      apply (Permutation_Forall (Permutation_sym (insert_ranked_perm x l))).
      constructor; [left; exact Hlt | exact Hy].
    + constructor; [constructor; assumption|].
      assert (Hx : ranks_before x y).
      { destruct (Rle_lt_or_eq_dec (snd y) (snd x)) as [H|H]; [lra | left; exact H |].
        right. split; [symmetry; exact H | exact Hxy]. }
      constructor; [exact Hx|].
      rewrite Forall_forall in *. intros z Hz.
      specialize (Hy z Hz). specialize (Hrest z Hz).
      unfold ranks_before in *.
      destruct (Rle_lt_or_eq_dec (snd z) (snd x)) as [H|H].
      * destruct Hy as [Hy|[Hy _]]; destruct Hx as [Hx|[Hx _]]; lra.
      * left; exact H.
      * right. split; [symmetry; exact H | exact Hrest].
Qed.

Lemma enumerate_from_cons {A} (n : nat) (x : A) (l : list A) :
  enumerate_from n (x :: l) = (n, x) :: enumerate_from (S n) l.
Proof. reflexivity. Qed.

Lemma enumerate_from_in {A} (l : list A) (n i : nat) (x : A) :
  In (i, x) (enumerate_from n l) -> n <= i /\ nth_error l (i - n) = Some x.
Proof.
  revert n. induction l as [|y l IH]; intros n Hin.
  - destruct Hin.
  - rewrite enumerate_from_cons in Hin. destruct Hin as [Heq|Hin].
    + inversion Heq; subst. split; [lia|]. rewrite Nat.sub_diag. reflexivity.
    + apply IH in Hin. destruct Hin as [Hle Hnth]. split; [lia|].
      replace (i - n) with (S (i - S n)) by lia. exact Hnth.
Qed.

Lemma enumerate_from_length {A} (l : list A) (n : nat) :
  length (enumerate_from n l) = length l.
Proof.
  unfold enumerate_from. rewrite length_combine, length_seq. apply Nat.min_id.
Qed.

Lemma rank_enumerate_sorted (l : list R) (n : nat) :
  StronglySorted ranks_before (rank (enumerate_from n l)).
Proof.
  revert n. induction l as [|x l IH]; intros n.
  - constructor.
  - rewrite enumerate_from_cons. simpl. apply insert_ranked_sorted; [apply IH|].
    apply (Permutation_Forall (Permutation_sym (rank_perm (enumerate_from (S n) l)))).
    rewrite Forall_forall. intros [i y] Hin.
    apply enumerate_from_in in Hin. simpl. lia.
Qed.

Lemma firstn_incl {A} (k : nat) (l : list A) (x : A) :
  In x (firstn k l) -> In x l.
Proof.
  intros H. rewrite <- (firstn_skipn k l). apply in_or_app. left. exact H.
Qed.

Lemma StronglySorted_firstn {A} (R : A -> A -> Prop) (k : nat) (l : list A) :
  StronglySorted R l -> StronglySorted R (firstn k l).
Proof.
  intros H. revert k. induction H as [|x l Hl IH Hx]; intros k.
  - rewrite firstn_nil. constructor.
  - destruct k as [|k]; simpl; constructor; [apply IH|].
    rewrite Forall_forall in *. intros y Hy. apply Hx.
    apply (firstn_incl _ _ _ Hy).
Qed.

Lemma StronglySorted_split {A} (R : A -> A -> Prop) (l1 l2 : list A) :
  StronglySorted R (l1 ++ l2) ->
  forall a b, In a l1 -> In b l2 -> R a b.
Proof.
  induction l1 as [|x l1 IH]; intros H a b Ha Hb.
  - destruct Ha.
  - simpl in H. inversion H as [|x' l' Hsorted Hx]; subst.
    destruct Ha as [Ha|Ha].
    + subst. rewrite Forall_forall in Hx. apply Hx. apply in_or_app. right. exact Hb.
    + apply IH; assumption.
Qed.

Lemma StronglySorted_weaken {A} (R1 R2 : A -> A -> Prop) (l : list A) :
  (forall a b, R1 a b -> R2 a b) ->
  StronglySorted R1 l -> StronglySorted R2 l.
Proof.
  intros Himp. induction 1 as [|x l Hl IH Hx]; constructor; [exact IH|].
  rewrite Forall_forall in *. intros y Hy. apply Himp, Hx, Hy.
Qed.

(** C7: for every index, query vector and [k], [search] returns the first
    [k] entries (all of them when the index holds fewer) of the ranking of
    the index by inner product with the normalized query: each result is the
    position of a stored vector with its score, scores do not increase along
    the result, of two results with one score the earlier position comes
    first, no entry left out is ranked before a returned one, and an empty
    index gives the empty result. *)
Theorem search_ranked :
  forall (index : IndexFlatIP) (query_vector : ndarray) (k : nat),
    StronglySorted (fun a b => (snd b <= snd a)%R) (search index query_vector k)
    /\ StronglySorted ranks_before (search index query_vector k)
    /\ length (search index query_vector k) = Nat.min k (ntotal index)
    /\ (forall i score, In (i, score) (search index query_vector k) ->
          exists row, nth_error (xb index) i = Some row
                      /\ score = dot (normalize_row query_vector) row)
    /\ (exists rest,
          Permutation (search index query_vector k ++ rest) (scores index query_vector)
          /\ forall a b, In a (search index query_vector k) -> In b rest -> ranks_before a b)
    /\ (xb index = [] -> search index query_vector k = []).
Proof.
  intros index q k. unfold search.
  pose proof (rank_enumerate_sorted (map (dot (normalize_row q)) (xb index)) 0) as Hsorted.
  fold (scores index q) in Hsorted.
  split; [|split; [|split; [|split; [|split]]]].
  - apply StronglySorted_firstn.
    apply (StronglySorted_weaken (R1 := ranks_before)); [|exact Hsorted].
    intros a b [H|[H _]]; lra.
  - apply StronglySorted_firstn. exact Hsorted.
  - rewrite length_firstn. rewrite (Permutation_length (rank_perm _)).
    unfold scores. rewrite enumerate_from_length, length_map. reflexivity.
  - intros i score Hin.
    apply firstn_incl in Hin.
    apply (Permutation_in _ (rank_perm _)) in Hin.
    apply enumerate_from_in in Hin. destruct Hin as [_ Hnth].
    rewrite Nat.sub_0_r in Hnth.
    rewrite nth_error_map in Hnth.
    destruct (nth_error (xb index) i) as [row|]; [|discriminate].
    exists row. split; [reflexivity|]. simpl in Hnth. congruence.
  - exists (skipn k (rank (scores index q))). split.
    + rewrite firstn_skipn. apply rank_perm.
    + apply StronglySorted_split. rewrite firstn_skipn. exact Hsorted.
  - intros Hempty. unfold scores. rewrite Hempty. simpl. apply firstn_nil.
Qed.

Lemma search_ranked_witness :
  search (IndexFlatIP_new 2) (float32_array [1; 0]%R) 3 = [].
Proof.
  destruct (search_ranked (IndexFlatIP_new 2) (float32_array [1; 0]%R) 3) as (_ & _ & _ & _ & _ & H).
  apply H. reflexivity.
Defined.

(** A run of [search]: the second and third vectors tie at the top and come
    out in insertion order; the first one, with a lower score, is left
    out. *)
Example search_ties_in_insertion_order :
  map fst (search {| d := 2; xb := [ float32_array [0; 1]%R; float32_array [1; 0]%R; float32_array [1; 0]%R ] |} (float32_array [1; 0]%R) 2) = [1; 2].
Proof.
  assert (Hq : normalize_row (float32_array [1; 0]%R) = float32_array [1; 0]%R).
  { unfold normalize_row, norm2, float32_array. cbn [elements sum_squares fold_right map].
    destruct (Rlt_dec 0 (1 * 1 + (0 * 0 + 0))) as [_|H]; [|exfalso; lra].
    replace (1 * 1 + (0 * 0 + 0))%R with 1%R by ring. rewrite sqrt_1.
    f_equal. f_equal; [field | f_equal; field]. }
  unfold search, scores. rewrite Hq.
  unfold dot, float32_array.
  cbn [xb map inner elements enumerate_from length seq combine rank fold_right].
  unfold insert_ranked; cbn [snd fst].
  repeat (match goal with
          | |- context [Rlt_dec ?a ?b] =>
              let H := fresh "H" in
              destruct (Rlt_dec a b) as [H|H]; cbn [snd fst] in H; try (exfalso; lra)
          end).
  reflexivity.
Qed.

(** * Further properties of the pipeline *)

(** ** Configuration *)

(** Only a missing file is replaced by the defaults.  A file that parses is
    returned as it is, with nothing logged and no default merged in, so
    that a section it lacks is a [KeyError] when read; any other failure of
    opening or parsing reaches the caller, with nothing logged. *)
Theorem load_config_only_missing_file_defaults :
  forall (fs : filesystem) (config_path : pystr) (s : state),
    (forall cfg, open_json fs config_path = Ok cfg ->
       _load_config fs config_path s = (Ok cfg, s))
    /\ (forall items section key,
          open_json fs config_path = Ok (VDict items) ->
          lookup (py section) items = None ->
          match _load_config fs config_path s with
          | (Ok cfg, _) => config_option cfg section key = Raise KeyError
          | (Raise _, _) => False
          end)
    /\ (forall e, open_json fs config_path = Raise e ->
          e <> FileNotFoundError ->
          _load_config fs config_path s = (Raise e, s)).
Proof.
  intros fs config_path s. split; [|split].
  - intros cfg H. unfold _load_config, try_except, call. rewrite H. reflexivity.
  - intros items section key H Hmiss.
    unfold _load_config, try_except, call. rewrite H.
    unfold config_option, subscript. rewrite Hmiss. reflexivity.
  - intros e H Hne. unfold _load_config, try_except, call. rewrite H.
    destruct e; try reflexivity. congruence.
Qed.

Lemma load_config_only_missing_file_defaults_witness :
  _load_config
    {| open_json := fun _ => Ok (VDict [(py "whisper", VDict [])]);
       legal_docs_dir := Missing |}
    (py "./config/rag_config.json") no_model_state =
    (Ok (VDict [(py "whisper", VDict [])]), no_model_state)
  /\ _load_config
       {| open_json := fun _ => Raise (PyException "JSONDecodeError");
          legal_docs_dir := Missing |}
       (py "./config/rag_config.json") no_model_state =
       (Raise (PyException "JSONDecodeError"), no_model_state).
Proof.
  split.
  - destruct (load_config_only_missing_file_defaults
                {| open_json := fun _ => Ok (VDict [(py "whisper", VDict [])]);
                   legal_docs_dir := Missing |}
                (py "./config/rag_config.json") no_model_state) as (H & _ & _).
    apply H. reflexivity.
  - destruct (load_config_only_missing_file_defaults
                {| open_json := fun _ => Raise (PyException "JSONDecodeError");
                   legal_docs_dir := Missing |}
                (py "./config/rag_config.json") no_model_state) as (_ & _ & H).
    apply H; [reflexivity | discriminate].
Defined.

(** ** The embedding selector at its edges *)

(** With the legal BERT model as the only model loaded, a text of 512
    characters or more is not embedded by it: the call logs the error and
    returns the all-zero vector of length 384. *)
Theorem long_text_with_only_legal_bert_is_zero :
  forall (s : state) (bert : AutoModel) (text : pystr),
    legal_bert_model (self s) = Some bert ->
    embeddings_model (self s) = None ->
    512 <= length text ->
    _generate_embedding (VStr text) s =
      (Ok (np_zeros 384), append_log s (ERROR, MsgNoEmbeddingModel))
    /\ selected_branch (self s) (VStr text) = Ok ZeroFallbackBranch.
Proof.
  intros s bert text Hbert Hgen Hlen. apply Nat.ltb_ge in Hlen.
  unfold _generate_embedding, selected_branch, bind, get_self, call, ret, log.
  rewrite Hbert, Hgen. simpl. rewrite Hlen. split; reflexivity.
Qed.

Lemma long_text_with_only_legal_bert_is_zero_witness :
  _generate_embedding (VStr long_text)
    {| self := {| config := _get_default_config; embeddings_model := None;
                  legal_bert_model := Some sample_bert; vector_store := None;
                  legal_documents := [] |};
       logger := [] |} =
    (Ok (np_zeros 384),
     append_log
       {| self := {| config := _get_default_config; embeddings_model := None;
                     legal_bert_model := Some sample_bert; vector_store := None;
                     legal_documents := [] |};
          logger := [] |}
       (ERROR, MsgNoEmbeddingModel)).
Proof.
  apply (@long_text_with_only_legal_bert_is_zero
           {| self := {| config := _get_default_config; embeddings_model := None;
                         legal_bert_model := Some sample_bert; vector_store := None;
                         legal_documents := [] |};
              logger := [] |}
           sample_bert long_text).
  - reflexivity.
  - reflexivity.
  - unfold long_text. rewrite repeat_length. lia.
Defined.

(** With the legal BERT model loaded, a content that has no length (null, a
    boolean or a number) raises [TypeError] before any model is called: the
    record is not stored and nothing changes.  Without the legal BERT model
    the length is never taken, and the general model is called on the
    content whatever it is. *)
Theorem content_without_length_raises :
  forall (s : state) (bert : AutoModel) (items : list (pystr * value)) (c : nat),
    legal_bert_model (self s) = Some bert ->
    len (field_or items "content" (VStr [])) = Raise TypeError ->
    load_record (VDict items) (s, c) = (Raise TypeError, (s, c))
    /\ forall (s0 : state) (model : SentenceTransformer),
         legal_bert_model (self s0) = None ->
         embeddings_model (self s0) = Some model ->
         _generate_embedding (field_or items "content" (VStr [])) s0 =
           (encode model (field_or items "content" (VStr [])) true, s0).
Proof.
  intros s bert items c Hbert Hlen. split.
  - apply load_record_dict_raise.
    unfold _generate_embedding, bind, get_self, call.
    rewrite Hbert, Hlen. reflexivity.
  - intros s0 model Hnone Hmodel.
    unfold _generate_embedding, bind, get_self, call, ret.
    rewrite Hnone, Hmodel. reflexivity.
Qed.

Lemma content_without_length_raises_witness :
  load_record (VDict [(py "content", VNone)]) (both_models_state, 0) =
    (Raise TypeError, (both_models_state, 0)).
Proof.
  apply (@content_without_length_raises both_models_state sample_bert
           [(py "content", VNone)] 0); reflexivity.
Defined.

(** ** Ingestion: what is read, what is kept, what is counted *)

Lemma for_each_related {S A} (R : S -> S -> Prop) (body : A -> M S unit) (xs : list A) :
  (forall s, R s s) ->
  (forall a b c, R a b -> R b c -> R a c) ->
  (forall x s, R s (snd (body x s))) ->
  forall s, R s (snd (for_each xs body s)).
Proof.
  intros Hrefl Htrans Hbody. induction xs as [|x xs IH]; intros s; simpl.
  - apply Hrefl.
  - unfold bind. pose proof (Hbody x s) as H.
    destruct (body x s) as [[[]|e] s1]; simpl in *.
    + eapply Htrans; [exact H | apply IH].
    + exact H.
Qed.

Lemma for_each_plain_files (names : list pystr) (sc : state * nat) :
  for_each (map PlainFile names) load_doc_type_dir sc = (Ok tt, sc).
Proof.
  induction names as [|n names IH]; simpl.
  - reflexivity.
  - unfold bind. simpl. exact IH.
Qed.

(** Without a corpus the pipeline comes up with no index instead of
    failing.  When the corpus directory is missing, or holds only plain
    files (JSON files placed directly in it, outside a category
    subdirectory, are never opened), ingestion and the index build return,
    nothing is stored, and the vector store is left unset. *)
Theorem no_corpus_leaves_no_index :
  forall (fs : filesystem) (s : state),
    legal_documents (self s) = [] ->
    (legal_docs_dir fs = Missing ->
       load_and_index fs s =
         (Ok tt, append_log (append_log s (WARNING, MsgDocsDirNotFound))
                   (WARNING, MsgNoDocuments)))
    /\ (forall names,
          legal_docs_dir fs = Directory (map PlainFile names) ->
          load_and_index fs s =
            (Ok tt, append_log (append_log s (INFO, MsgLoaded 0))
                      (WARNING, MsgNoDocuments))).
Proof.
  intros fs s Hdocs. split.
  - intros Hdir. unfold load_and_index, bind, _load_legal_database. rewrite Hdir.
    unfold log at 1. unfold _initialize_vector_store, bind, get_self. simpl.
    rewrite Hdocs. reflexivity.
  - intros names Hdir. unfold load_and_index, bind, _load_legal_database. rewrite Hdir.
    unfold with_count, bind. rewrite for_each_plain_files.
    unfold get_count, lift, log. simpl.
    unfold _initialize_vector_store, bind, get_self. simpl.
    rewrite Hdocs. reflexivity.
Qed.

Lemma no_corpus_leaves_no_index_witness :
  load_and_index
    {| open_json := fun _ => Raise FileNotFoundError; legal_docs_dir := Missing |}
    general_only_state =
    (Ok tt, append_log (append_log general_only_state (WARNING, MsgDocsDirNotFound))
              (WARNING, MsgNoDocuments))
  /\ load_and_index
       {| open_json := fun _ => Raise FileNotFoundError;
          legal_docs_dir := Directory (map PlainFile [py "statutes.json"]) |}
       general_only_state =
       (Ok tt, append_log (append_log general_only_state (INFO, MsgLoaded 0))
                 (WARNING, MsgNoDocuments)).
Proof.
  split.
  - destruct (@no_corpus_leaves_no_index
                {| open_json := fun _ => Raise FileNotFoundError; legal_docs_dir := Missing |}
                general_only_state eq_refl) as [H _].
    apply H. reflexivity.
  - destruct (@no_corpus_leaves_no_index
                {| open_json := fun _ => Raise FileNotFoundError;
                   legal_docs_dir := Directory (map PlainFile [py "statutes.json"]) |}
                general_only_state eq_refl) as [_ H].
    apply (H [py "statutes.json"]). reflexivity.
Defined.

(** Ingestion only appends.  Whatever the corpus holds and whether the call
    returns or raises, the configuration, both models and the vector store
    are left as they were, the documents already stored stay in place, and
    every document added has an embedding; an index built earlier is not
    updated. *)
Theorem ingestion_only_appends :
  forall (fs : filesystem) (s : state),
    config (self (snd (_load_legal_database fs s))) = config (self s)
    /\ embeddings_model (self (snd (_load_legal_database fs s))) = embeddings_model (self s)
    /\ legal_bert_model (self (snd (_load_legal_database fs s))) = legal_bert_model (self s)
    /\ vector_store (self (snd (_load_legal_database fs s))) = vector_store (self s)
    /\ exists new,
         legal_documents (self (snd (_load_legal_database fs s))) =
           legal_documents (self s) ++ new
         /\ Forall (fun doc => embedding doc <> None) new.
Proof.
  intros fs s. exact (load_legal_database_grows fs s).
Qed.

Lemma counted_refl (a : state * nat) : counted a a.
Proof.
  exists []. rewrite app_nil_r, Nat.add_0_r. split; reflexivity.
Qed.

Lemma counted_trans (a b c : state * nat) : counted a b -> counted b c -> counted a c.
Proof.
  intros (n1 & H1 & K1) (n2 & H2 & K2). exists (n1 ++ n2). split.
  - rewrite H2, H1, app_assoc. reflexivity.
  - rewrite K2, K1, length_app. lia.
Qed.

Lemma load_record_counted (doc_data : value) (sc : state * nat) :
  counted sc (snd (load_record doc_data sc)).
Proof.
  destruct sc as [s c].
  destruct (load_record_cases doc_data s c)
    as [(e & s' & H & _ & Hdocs) | (s' & doc & H & _ & Hdocs & _)]; rewrite H.
  - exists []. simpl. rewrite app_nil_r, Nat.add_0_r. split; [exact Hdocs | reflexivity].
  - exists [doc]. simpl. rewrite Hdocs. split; [reflexivity | lia].
Qed.

Lemma load_json_file_counted (f : json_file) (sc : state * nat) :
  counted sc (snd (load_json_file f sc)).
Proof.
  unfold load_json_file, try_except.
  assert (Hbody : counted sc
            (snd ((documents <- call (file_load f) ;;
                   records <- call (iter documents) ;;
                   for_each records load_record) sc))).
  { unfold bind, call. destruct (file_load f) as [documents|e]; [|apply counted_refl].
    destruct (iter documents) as [records|e]; [|apply counted_refl].
    apply (for_each_related counted load_record records
             counted_refl counted_trans load_record_counted). }
  destruct (bind _ _ sc) as [[[]|e] sc1]; simpl in *.
  - exact Hbody.
  - destruct Hbody as (new & Hdocs & Hc). exists new. split; assumption.
Qed.

Lemma load_doc_type_dir_counted (entry : dir_entry) (sc : state * nat) :
  counted sc (snd (load_doc_type_dir entry sc)).
Proof.
  destruct entry as [name files|name]; simpl; [|apply counted_refl].
  unfold bind, lift, log. simpl.
  eapply counted_trans;
    [|apply (for_each_related counted load_json_file files
               counted_refl counted_trans load_json_file_counted)].
  exists []. simpl. rewrite app_nil_r, Nat.add_0_r. split; reflexivity.
Qed.

(** The number that ingestion logs at its end is the number of documents it
    appended: records of files that failed part-way are counted up to the
    failure, as they are stored. *)
Theorem load_legal_database_logs_its_count :
  forall (fs : filesystem) (entries : list dir_entry) (s : state),
    legal_docs_dir fs = Directory entries ->
    exists (new : list LegalDocument) (s1 : state),
      _load_legal_database fs s = (Ok tt, append_log s1 (INFO, MsgLoaded (length new)))
      /\ legal_documents (self s1) = legal_documents (self s) ++ new.
Proof.
  intros fs entries s Hdir. unfold _load_legal_database. rewrite Hdir.
  unfold with_count, bind.
  pose proof (for_each_related counted load_doc_type_dir entries
                counted_refl counted_trans load_doc_type_dir_counted (s, 0)) as Hc.
  pose proof (for_each_returns load_doc_type_dir entries load_doc_type_dir_returns (s, 0)) as Hr.
  destruct (for_each entries load_doc_type_dir (s, 0)) as [[[]|e] [s1 c1]];
    simpl in *; [|discriminate].
  destruct Hc as (new & Hdocs & Hcount). simpl in *. subst c1.
  exists new, s1. split; [reflexivity | exact Hdocs].
Qed.

Lemma load_legal_database_logs_its_count_witness :
  exists (new : list LegalDocument) (s1 : state),
    _load_legal_database
      (corpus [ file_of "statutes/a.json" [tenant_record; VInt 7; lease_record] ])
      general_only_state =
      (Ok tt, append_log s1 (INFO, MsgLoaded (length new)))
    /\ legal_documents (self s1) = legal_documents (self general_only_state) ++ new.
Proof.
  apply (@load_legal_database_logs_its_count
           (corpus [ file_of "statutes/a.json" [tenant_record; VInt 7; lease_record] ])
           [Subdir (py "statutes")
              [ file_of "statutes/a.json" [tenant_record; VInt 7; lease_record] ]]
           general_only_state).
  reflexivity.
Defined.

(** A file that does not hold a JSON array stores nothing.  A file that
    cannot be opened or parsed, or whose top-level value is an object, a
    string, a number, a boolean or null, leaves the object and the counter
    as they were and never makes ingestion raise; a single document written
    as one JSON object (not wrapped in an array) is reported as an
    [AttributeError] of that file. *)
Theorem non_array_file_stores_nothing :
  forall (f : json_file) (sc : state * nat),
    (forall records, file_load f <> Ok (VList records)) ->
    fst (load_json_file f sc) = Ok tt
    /\ self (fst (snd (load_json_file f sc))) = self (fst sc)
    /\ snd (snd (load_json_file f sc)) = snd sc
    /\ (forall kv rest,
          file_load f = Ok (VDict (kv :: rest)) ->
          snd (load_json_file f sc) =
            (append_log (fst sc) (ERROR, MsgErrorLoading (file_path f) AttributeError),
             snd sc))
    /\ (forall e,
          file_load f = Raise e ->
          snd (load_json_file f sc) =
            (append_log (fst sc) (ERROR, MsgErrorLoading (file_path f) e), snd sc)).
Proof.
  intros f [s c] Hnot.
  unfold load_json_file, try_except, bind, call, lift, log.
  destruct (file_load f) as [documents|e] eqn:Hload.
  - destruct documents as [|b|z|q|str|l|items];
      try (exfalso; apply (Hnot l); reflexivity);
      try (simpl; repeat split; intros; congruence).
    + destruct str as [|ch str]; simpl;
        repeat split; intros; congruence.
    + destruct items as [|kv items]; simpl;
        repeat split; intros; congruence.
  - simpl. repeat split; intros; try congruence.
    inversion H; subst. reflexivity.
Qed.

Lemma non_array_file_stores_nothing_witness :
  snd (load_json_file
         {| file_path := py "statutes/one.json"; file_load := Ok tenant_record |}
         (general_only_state, 0)) =
    (append_log general_only_state
       (ERROR, MsgErrorLoading (py "statutes/one.json") AttributeError), 0).
Proof.
  destruct (@non_array_file_stores_nothing
              {| file_path := py "statutes/one.json"; file_load := Ok tenant_record |}
              (general_only_state, 0)) as (_ & _ & _ & H & _).
  - intros records. discriminate.
  - apply (H (py "content", VStr (py "Tenant eviction notice requirements"))
             [(py "jurisdiction", VStr (py "CA"))]).
    reflexivity.
Defined.

Lemma append_documents_nil (s : state) : append_documents s [] = s.
Proof.
  unfold append_documents, set_legal_documents. rewrite app_nil_r.
  destruct s as [[cfg gen bert vs docs] lg]. reflexivity.
Qed.

Lemma append_documents_cons (s : state) (doc : LegalDocument) (docs : list LegalDocument) :
  append_documents (append_document s doc) docs = append_documents s (doc :: docs).
Proof.
  unfold append_documents, append_document, set_legal_documents. simpl.
  rewrite <- app_assoc. reflexivity.
Qed.

Lemma append_documents_app (s : state) (a b : list LegalDocument) :
  append_documents (append_documents s a) b = append_documents s (a ++ b).
Proof.
  unfold append_documents, set_legal_documents. simpl.
  rewrite <- app_assoc. reflexivity.
Qed.

(** With the general model as the only model, a record is processed in one
    way: a JSON object is embedded by the model and stored, anything else
    raises. *)
Lemma load_record_general (model : SentenceTransformer) (f : value -> ndarray)
    (doc_data : value) (s : state) (c : nat) :
  legal_bert_model (self s) = None ->
  embeddings_model (self s) = Some model ->
  (forall text, encode model text true = Ok (f text)) ->
  load_record doc_data (s, c) =
    match doc_data with
    | VDict items => (Ok tt, (append_document s (document_of f items), S c))
    | _ => (Raise AttributeError, (s, c))
    end.
Proof.
  intros Hbert Hgen Hf.
  destruct doc_data; try reflexivity.
  apply load_record_dict.
  unfold _generate_embedding, bind, get_self, call, ret.
  rewrite Hbert, Hgen. simpl. rewrite Hf. reflexivity.
Qed.

Lemma load_objects_general (model : SentenceTransformer) (f : value -> ndarray)
    (records : list (list (pystr * value))) (s : state) (c : nat) :
  legal_bert_model (self s) = None ->
  embeddings_model (self s) = Some model ->
  (forall text, encode model text true = Ok (f text)) ->
  for_each (map VDict records) load_record (s, c) =
    (Ok tt, (append_documents s (map (document_of f) records), c + length records)).
Proof.
  intros Hbert Hgen Hf. revert s c Hbert Hgen.
  induction records as [|items records IH]; intros s c Hbert Hgen; simpl.
  - rewrite append_documents_nil, Nat.add_0_r. reflexivity.
  - unfold bind at 1.
    rewrite (@load_record_general model f (VDict items) s c Hbert Hgen Hf).
    rewrite IH; [|exact Hbert | exact Hgen].
    rewrite append_documents_cons. f_equal. f_equal. lia.
Qed.

(** A well-formed corpus is ingested whole and in order.  With the general
    model as the only model, and the model returning a vector for every
    content, files that each hold an array of JSON objects are stored
    record after record, file after file, nothing is logged, and the counter
    goes up by the number of records. *)
Theorem well_formed_files_load_in_order :
  forall (model : SentenceTransformer) (f : value -> ndarray)
         (files : list (pystr * list (list (pystr * value)))) (s : state) (c : nat),
    legal_bert_model (self s) = None ->
    embeddings_model (self s) = Some model ->
    (forall text, encode model text true = Ok (f text)) ->
    for_each (map (fun pf => array_file (fst pf) (snd pf)) files) load_json_file (s, c) =
      (Ok tt,
       (append_documents s (map (document_of f) (concat (map snd files))),
        c + length (concat (map snd files)))).
Proof.
  intros model f files s c Hbert Hgen Hf. revert s c Hbert Hgen.
  induction files as [|[path records] files IH]; intros s c Hbert Hgen; simpl.
  - rewrite append_documents_nil, Nat.add_0_r. reflexivity.
  - unfold bind at 1.
    assert (Hfile : load_json_file (array_file path records) (s, c) =
              (Ok tt, (append_documents s (map (document_of f) records),
                       c + length records))).
    { unfold load_json_file, array_file, try_except, bind, call.
      cbn [file_load file_path iter].
      rewrite (@load_objects_general model f records s c Hbert Hgen Hf). reflexivity. }
    rewrite Hfile.
    rewrite IH; [|exact Hbert | exact Hgen].
    rewrite append_documents_app, map_app, length_app, Nat.add_assoc. reflexivity.
Qed.

Lemma well_formed_files_load_in_order_witness :
  for_each
    (map (fun pf => array_file (fst pf) (snd pf))
       [ (py "statutes/a.json", [ [(py "content", VStr (py "first"))] ]);
         (py "statutes/b.json", [ []; [(py "content", VStr (py "third"))] ]) ])
    load_json_file (general_only_state, 0) =
    (Ok tt,
     (append_documents general_only_state
        (map (document_of (fun _ => (float32_array [3 / 5; 4 / 5]%R)))
           (concat (map snd
              [ (py "statutes/a.json", [ [(py "content", VStr (py "first"))] ]);
                (py "statutes/b.json", [ []; [(py "content", VStr (py "third"))] ]) ]))),
      0 + length (concat (map snd
              [ (py "statutes/a.json", [ [(py "content", VStr (py "first"))] ]);
                (py "statutes/b.json", [ []; [(py "content", VStr (py "third"))] ]) ])))).
Proof.
  apply (@well_formed_files_load_in_order sample_general (fun _ => (float32_array [3 / 5; 4 / 5]%R)));
    reflexivity.
Defined.

(** ** The index build at its edges *)

Lemma np_array_ragged (rows : list ndarray) (e1 e2 : ndarray) :
  In e1 rows -> In e2 rows -> length e1 <> length e2 ->
  np_array rows = Raise ValueError.
Proof.
  intros H1 H2 Hne. unfold np_array.
  destruct rows as [|r rest]; [destruct H1|].
  destruct (forallb (fun r' : ndarray => Nat.eqb (length r') (length r)) rest) eqn:Hall;
    [|reflexivity].
  exfalso. rewrite forallb_forall in Hall.
  assert (Hlen : forall x, In x (r :: rest) -> length x = length r).
  { intros x [Hx|Hx]; [subst; reflexivity|]. apply Nat.eqb_eq. apply Hall. exact Hx. }
  apply Hne. rewrite (Hlen e1 H1), (Hlen e2 H2). reflexivity.
Qed.

(** Embeddings of two dimensions fail the build.  When two documents carry
    embeddings of different lengths, as the two models give when they
    differ in dimension, [_initialize_vector_store] raises and leaves the
    object, its vector store included, and the log as they were. *)
Theorem mixed_dimensions_fail_the_build :
  forall (s : state) (e1 e2 : ndarray),
    In e1 (present_embeddings (legal_documents (self s))) ->
    In e2 (present_embeddings (legal_documents (self s))) ->
    length e1 <> length e2 ->
    exists e, _initialize_vector_store s = (Raise e, s).
Proof.
  intros s e1 e2 H1 H2 Hne.
  pose proof (np_array_ragged _ _ _ H1 H2 Hne) as Hragged.
  destruct (initialize_vector_store_cases s)
    as [[Hdocs _] | [(_ & e & He & Hrun) | [(_ & Hrows & _)
        | [(_ & _ & Hok & _) | (_ & _ & [x Hok] & _)]]]].
  - rewrite Hdocs in H1. destruct H1.
  - exists e. exact Hrun.
  - rewrite Hrows in H1. destruct H1.
  - congruence.
  - congruence.
Qed.

Lemma mixed_dimensions_fail_the_build_witness :
  exists e,
    _initialize_vector_store
      (append_documents general_only_state
         [ record_document [] (float32_array [0; 1]%R); record_document [] (float32_array [1; 0; 0]%R) ]) =
      (Raise e,
       append_documents general_only_state
         [ record_document [] (float32_array [0; 1]%R); record_document [] (float32_array [1; 0; 0]%R) ]).
Proof.
  apply (@mixed_dimensions_fail_the_build
           (append_documents general_only_state
              [ record_document [] (float32_array [0; 1]%R); record_document [] (float32_array [1; 0; 0]%R) ])
           (float32_array [0; 1]%R) (float32_array [1; 0; 0]%R)).
  - simpl. left. reflexivity.
  - simpl. right. left. reflexivity.
  - simpl. lia.
Defined.

(** A rebuild replaces the index.  Whatever index the object held, a build
    that returns leaves the documents, the configuration and the models as
    they were, and building again on its result returns and leaves the same
    object: vectors are never stored twice. *)
Theorem rebuild_replaces_the_index :
  forall (s s1 : state),
    _initialize_vector_store s = (Ok tt, s1) ->
    legal_documents (self s1) = legal_documents (self s)
    /\ config (self s1) = config (self s)
    /\ embeddings_model (self s1) = embeddings_model (self s)
    /\ legal_bert_model (self s1) = legal_bert_model (self s)
    /\ fst (_initialize_vector_store s1) = Ok tt
    /\ self (snd (_initialize_vector_store s1)) = self s1.
Proof.
  intros s s1 Hrun.
  assert (Hagain : forall (t : state),
            legal_documents (self t) = legal_documents (self s) ->
            (legal_documents (self s) = []
             \/ present_embeddings (legal_documents (self s)) = []
             \/ (present_embeddings (legal_documents (self s)) <> []
                 /\ (exists x, np_array (present_embeddings (legal_documents (self s))) = Ok x)
                 /\ forallb (fun row => is_float32 (element_type row))
                      (present_embeddings (legal_documents (self s))) = true
                 /\ vector_store (self t) =
                      Some {| d := shape1 (present_embeddings (legal_documents (self s)));
                              xb := map normalize_row
                                      (present_embeddings (legal_documents (self s))) |})) ->
            fst (_initialize_vector_store t) = Ok tt
            /\ self (snd (_initialize_vector_store t)) = self t).
  { intros t Hsame Hcase.
    destruct (initialize_vector_store_cases t)
      as [[K H] | [(K & e & Ke & H) | [(K & Kr & H)
          | [(K & Kr & Kok & Kall & H) | (K & Kr & Kok & Kall & H)]]]];
      rewrite H; cbn [fst snd]; rewrite Hsame in *.
    - split; reflexivity.
    - exfalso. destruct Hcase as [Hc | [Hc | (_ & [x Hc] & _)]].
      + apply K. exact Hc.
      + rewrite Hc in Ke. discriminate.
      + congruence.
    - split; reflexivity.
    - destruct Hcase as [Hc | [Hc | (_ & _ & _ & Hvs)]].
      + exfalso. apply K. exact Hc.
      + exfalso. apply Kr. exact Hc.
      + split; [reflexivity|].
        unfold with_index, set_vector_store. cbn [self].
        rewrite <- Hvs. destruct t as [[cfg gen bert vs docs] lg]. reflexivity.
    - exfalso. destruct Hcase as [Hc | [Hc | (_ & _ & Hall & _)]].
      + apply K. exact Hc.
      + apply Kr. exact Hc.
      + congruence. }
  destruct (initialize_vector_store_cases s)
    as [[Hdocs H] | [(_ & e & _ & H) | [(Hne & Hrows & H)
        | [(Hne & Hrows & Hok & Hall & H) | (_ & _ & _ & _ & H)]]]];
    rewrite H in Hrun; inversion Hrun; subst; clear Hrun.
  - repeat split; apply Hagain; try reflexivity; left; exact Hdocs.
  - repeat split; apply Hagain; try reflexivity; right; left; exact Hrows.
  - repeat split; apply Hagain; try reflexivity; right; right;
      (split; [exact Hrows|]); (split; [eexists; exact Hok|]);
      (split; [exact Hall|]); reflexivity.
Qed.

Lemma rebuild_replaces_the_index_witness :
  self (snd (_initialize_vector_store
               (snd (_initialize_vector_store
                       (append_document general_only_state
                          (record_document [] (float32_array [3 / 5; 4 / 5]%R))))))) =
  self (snd (_initialize_vector_store
               (append_document general_only_state
                  (record_document [] (float32_array [3 / 5; 4 / 5]%R))))).
Proof.
  apply (@rebuild_replaces_the_index
           (append_document general_only_state (record_document [] (float32_array [3 / 5; 4 / 5]%R)))
           (snd (_initialize_vector_store
                   (append_document general_only_state
                      (record_document [] (float32_array [3 / 5; 4 / 5]%R)))))).
  reflexivity.
Defined.

(** A float64 embedding fails the build after the old index is gone.  When
    the embeddings have one length and one of them is float64, as the
    all-zero fallback of the selector is, the matrix is float64: the method
    first replaces the vector store by an empty index of that dimension and
    then raises [TypeError] at the normalization; documents and log are
    left as they were. *)
Theorem float64_embedding_fails_the_build :
  forall (s : state) (e : ndarray) (x : list ndarray),
    In e (present_embeddings (legal_documents (self s))) ->
    element_type e = float64 ->
    np_array (present_embeddings (legal_documents (self s))) = Ok x ->
    _initialize_vector_store s =
      (Raise TypeError,
       {| self := set_vector_store (self s)
                    (Some (IndexFlatIP_new
                             (shape1 (present_embeddings (legal_documents (self s))))));
          logger := logger s |}).
Proof.
  intros s e x Hin Htype Hx.
  assert (Hnot32 : forallb (fun row => is_float32 (element_type row))
                     (present_embeddings (legal_documents (self s))) = false).
  { destruct (forallb (fun row => is_float32 (element_type row))
                (present_embeddings (legal_documents (self s)))) eqn:Hall;
      [|reflexivity].
    rewrite forallb_forall in Hall. specialize (Hall e Hin).
    rewrite Htype in Hall. discriminate. }
  destruct (initialize_vector_store_cases s)
    as [[Hdocs _] | [(_ & e' & He & _) | [(_ & Hrows & _)
        | [(_ & _ & _ & Hall & _) | (_ & _ & _ & _ & H)]]]].
  - rewrite Hdocs in Hin. destruct Hin.
  - congruence.
  - rewrite Hrows in Hin. destruct Hin.
  - congruence.
  - exact H.
Qed.

Lemma float64_embedding_fails_the_build_witness :
  _initialize_vector_store
    (append_document no_model_state (record_document [] (np_zeros 384))) =
    (Raise TypeError,
     {| self := set_vector_store
                  (self (append_document no_model_state (record_document [] (np_zeros 384))))
                  (Some (IndexFlatIP_new
                           (shape1 (present_embeddings
                              (legal_documents
                                 (self (append_document no_model_state
                                          (record_document [] (np_zeros 384)))))))));
        logger := logger (append_document no_model_state
                            (record_document [] (np_zeros 384))) |}).
Proof.
  apply (@float64_embedding_fails_the_build
           (append_document no_model_state (record_document [] (np_zeros 384)))
           (np_zeros 384) [np_zeros 384]).
  - left. reflexivity.
  - reflexivity.
  - reflexivity.
Defined.

(** ** Ingestion and build together *)

Section GeneralModelOnly.

Variable model : SentenceTransformer.
Variable f : value -> ndarray.
Variable dim : nat.
Hypothesis model_total : forall text, encode model text true = Ok (f text).
Hypothesis model_dim : forall text, length (f text) = dim.
Hypothesis model_float32 : forall text, element_type (f text) = float32.











End GeneralModelOnly.


(** ** Loading the embedding models *)

(** When [_load_embedding_models] returns, the general model is loaded.  On
    any state of that object the embedding selector therefore never takes
    the all-zero fallback, whatever the text. *)
Theorem loaded_models_exclude_zero_fallback :
  forall (env : model_store) (l l' : loading),
    _load_embedding_models env l = (Ok tt, l') ->
    embeddings_model (object l') <> None
    /\ forall (s : state) (text : value),
         self s = object l' ->
         selected_branch (self s) text <> Ok ZeroFallbackBranch
         /\ logger (snd (_generate_embedding text s)) = logger s.
Proof.
  intros env l l' Hrun.
  assert (Hgen : embeddings_model (object l') <> None).
  { unfold _load_embedding_models, bind, call, get_object, modify_object,
      set_tokenizer, loader_info in Hrun.
    destruct (general_dir_exists env).
    - destruct (SentenceTransformer_new env (VStr (general_dir env))) as [m|e];
        [|discriminate]. cbn -[py subscript] in Hrun.
      destruct (legal_bert_dir_exists env).
      + destruct (AutoTokenizer_from_pretrained env (legal_bert_dir env)) as [t|e];
          [|discriminate]. cbn -[py subscript] in Hrun.
        destruct (AutoModel_from_pretrained env (legal_bert_dir env)) as [b|e];
          [|discriminate]. cbn -[py subscript] in Hrun.
        inversion Hrun; subst. discriminate.
      + inversion Hrun; subst. discriminate.
    - cbn -[py subscript] in Hrun.
      destruct (subscript (config (object l)) (py "embeddings")) as [sec|e];
        [|discriminate]. cbn -[py subscript] in Hrun.
      destruct (subscript sec (py "model_name")) as [name|e]; [|discriminate].
      cbn -[py subscript] in Hrun.
      destruct (SentenceTransformer_new env name) as [m|e]; [|discriminate].
      cbn -[py subscript] in Hrun.
      destruct (legal_bert_dir_exists env).
      + destruct (AutoTokenizer_from_pretrained env (legal_bert_dir env)) as [t|e];
          [|discriminate]. cbn -[py subscript] in Hrun.
        destruct (AutoModel_from_pretrained env (legal_bert_dir env)) as [b|e];
          [|discriminate]. cbn -[py subscript] in Hrun.
        inversion Hrun; subst. discriminate.
      + inversion Hrun; subst. discriminate. }
  split; [exact Hgen|].
  intros s text Hs. rewrite <- Hs in Hgen.
  destruct (embeddings_model (self s)) as [m|] eqn:Hm; [|congruence].
  split.
  - unfold selected_branch. rewrite Hm.
    destruct (legal_bert_model (self s)); [|discriminate].
    destruct (len text) as [n|e]; [|discriminate].
    destruct (n <? 512); discriminate.
  - unfold _generate_embedding, bind, get_self, call, ret, log. rewrite Hm.
    destruct (legal_bert_model (self s)); [|reflexivity].
    destruct (len text) as [n|e]; [|reflexivity]. simpl.
    destruct (n <? 512); reflexivity.
Qed.

Lemma loaded_models_exclude_zero_fallback_witness :
  embeddings_model
    (object (snd (_load_embedding_models sample_store (fresh_loading _get_default_config))))
  <> None.
Proof.
  apply (@loaded_models_exclude_zero_fallback sample_store
           (fresh_loading _get_default_config)
           (snd (_load_embedding_models sample_store (fresh_loading _get_default_config)))).
  reflexivity.
Defined.

(** The name of the online model is read from the configuration only when
    the local directory of the general model is missing.  Then a
    configuration without [embeddings.model_name] makes the method raise
    with the object unchanged and nothing logged; with the local directory
    present the configuration is not consulted at all. *)
Theorem model_name_is_read_only_without_local_model :
  forall (env : model_store) (l : loading),
    (general_dir_exists env = false ->
     forall e, config_option (config (object l)) "embeddings" "model_name" = Raise e ->
       _load_embedding_models env l = (Raise e, l))
    /\ (general_dir_exists env = true ->
        forall cfg,
          fst (_load_embedding_models env
                 {| object := {| config := cfg;
                                 embeddings_model := embeddings_model (object l);
                                 legal_bert_model := legal_bert_model (object l);
                                 vector_store := vector_store (object l);
                                 legal_documents := legal_documents (object l) |};
                    legal_bert_tokenizer := legal_bert_tokenizer l;
                    loader_log := loader_log l |}) =
          fst (_load_embedding_models env l)).
Proof.
  intros env l. split.
  - intros Hdir e Hcfg.
    unfold _load_embedding_models, bind, call, get_object. rewrite Hdir. cbn -[py subscript].
    unfold config_option in Hcfg.
    destruct (subscript (config (object l)) (py "embeddings")) as [sec|e'].
    + cbn -[py subscript]. rewrite Hcfg. reflexivity.
    + inversion Hcfg; subst. reflexivity.
  - intros Hdir cfg.
    unfold _load_embedding_models, bind, call, get_object, modify_object,
      set_tokenizer, loader_info. rewrite Hdir.
    destruct (SentenceTransformer_new env (VStr (general_dir env))) as [m|e];
      [|reflexivity]. cbn.
    destruct (legal_bert_dir_exists env); [|reflexivity].
    destruct (AutoTokenizer_from_pretrained env (legal_bert_dir env)) as [t|e];
      [|reflexivity]. cbn.
    destruct (AutoModel_from_pretrained env (legal_bert_dir env)) as [b|e];
      reflexivity.
Qed.

Lemma model_name_is_read_only_without_local_model_witness :
  _load_embedding_models online_store (fresh_loading (VDict [(py "whisper", VDict [])])) =
    (Raise KeyError, fresh_loading (VDict [(py "whisper", VDict [])])).
Proof.
  destruct (model_name_is_read_only_without_local_model online_store
              (fresh_loading (VDict [(py "whisper", VDict [])]))) as [H _].
  apply H; reflexivity.
Defined.

(** Without the legal BERT directory the legal model stays unset: on an
    object that had none, the method returns after a warning, and from then
    on every content, short or long, string or not, is passed to the general
    model, and embedding it changes nothing. *)
Theorem without_legal_bert_all_texts_use_general_model :
  forall (env : model_store) (l l' : loading),
    legal_bert_dir_exists env = false ->
    legal_bert_model (object l) = None ->
    _load_embedding_models env l = (Ok tt, l') ->
    exists model,
      embeddings_model (object l') = Some model
      /\ legal_bert_model (object l') = None
      /\ last (loader_log l') (INFO, MsgLoadedGeneralModel) = (WARNING, MsgLegalBertNotFound)
      /\ forall (s : state) (text : value),
           self s = object l' ->
           _generate_embedding text s = (encode model text true, s).
Proof.
  intros env l l' Hdir Hnone Hrun.
  assert (H : exists model,
            embeddings_model (object l') = Some model
            /\ legal_bert_model (object l') = None
            /\ last (loader_log l') (INFO, MsgLoadedGeneralModel) =
               (WARNING, MsgLegalBertNotFound)).
  { unfold _load_embedding_models, bind, call, get_object, modify_object,
      set_tokenizer, loader_info in Hrun. rewrite Hdir in Hrun.
    destruct (general_dir_exists env).
    - destruct (SentenceTransformer_new env (VStr (general_dir env))) as [m|e];
        [|discriminate]. cbn -[py subscript] in Hrun. inversion Hrun; subst. cbn.
      exists m. repeat split; [exact Hnone | apply last_last].
    - cbn -[py subscript] in Hrun.
      destruct (subscript (config (object l)) (py "embeddings")) as [sec|e];
        [|discriminate]. cbn -[py subscript] in Hrun.
      destruct (subscript sec (py "model_name")) as [name|e]; [|discriminate].
      cbn -[py subscript] in Hrun.
      destruct (SentenceTransformer_new env name) as [m|e]; [|discriminate].
      cbn -[py subscript] in Hrun. inversion Hrun; subst. cbn.
      exists m. repeat split; [exact Hnone | apply last_last]. }
  destruct H as (model & Hm & Hb & Hlast).
  exists model. repeat split; try assumption.
  intros s text Hs.
  unfold _generate_embedding, bind, get_self, call, ret.
  rewrite Hs, Hb, Hm. reflexivity.
Qed.

Lemma without_legal_bert_all_texts_use_general_model_witness :
  exists model,
    embeddings_model
      (object (snd (_load_embedding_models sample_store
                      (fresh_loading _get_default_config)))) = Some model.
Proof.
  destruct (@without_legal_bert_all_texts_use_general_model sample_store
              (fresh_loading _get_default_config)
              (snd (_load_embedding_models sample_store
                      (fresh_loading _get_default_config)))
              eq_refl eq_refl eq_refl) as (model & H & _).
  exists model. exact H.
Defined.

(** * Properties of the downloader *)

(** ** One model *)

(** [download_model] answers without touching the machine in two cases: an
    unknown name gives [False] after one error record, and a model whose
    directory exists gives [True] when no redownload is forced, without its
    entry being read. *)
Theorem download_model_without_download :
  forall (World Path : Type) (h : host World Path) (this : downloader Path)
         (model_name : pystr) (s : dstate World Path),
    (lookup model_name (models_config this) = None ->
     forall force,
       download_model h this model_name force s =
         (Ok false,
          {| world := world s;
             dlog := dlog s ++ [(ERROR, DlModelNotFound model_name)] |}))
    /\ (forall entry,
          lookup model_name (models_config this) = Some entry ->
          path_exists h (joinpath h (models_dir this) model_name) (world s) = Ok true ->
          download_model h this model_name false s =
            (Ok true,
             {| world := world s;
                dlog := dlog s ++ [(INFO, DlAlreadyExists model_name)] |})).
Proof.
  intros World Path h this model_name s. split.
  - intros Hnone force. unfold download_model. rewrite Hnone. reflexivity.
  - intros entry Hsome Hexists. unfold download_model. rewrite Hsome.
    unfold bind, get_world, call. rewrite Hexists. reflexivity.
Qed.

Lemma download_model_without_download_witness :
  download_model toy_host toy_downloader (py "gpt-legal") true toy_start =
    (Ok false,
     {| world := world toy_start;
        dlog := dlog toy_start ++ [(ERROR, DlModelNotFound (py "gpt-legal"))] |}).
Proof.
  destruct (download_model_without_download toy_host toy_downloader (py "gpt-legal")
              toy_start) as [H _].
  apply H. reflexivity.
Defined.

(** Whatever is raised inside the [try] of [download_model] ends as
    [False]. *)
Lemma try_all_returns {St A} (body : M St A) (handler : exn -> M St A) (s : St) :
  (forall e s', exists a s'', handler e s' = (Ok a, s'')) ->
  exists a s', try_except body (fun _ => true) handler s = (Ok a, s').
Proof.
  intros Hh. unfold try_except.
  destruct (body s) as [[a|e] s1].
  - exists a, s1. reflexivity.
  - apply Hh.
Qed.

(** Every entry of the built-in table has what [download_model] reads
    before its [try]. *)
Lemma default_entries_have_size_and_description (model_name : pystr) (entry : value) :
  lookup model_name default_models_config = Some entry ->
  (exists size, subscript entry (py "size") = Ok size)
  /\ (exists description, subscript entry (py "description") = Ok description).
Proof.
  unfold default_models_config. cbn [lookup].
  repeat (match goal with
          | |- context [if pystr_eqb ?k model_name then _ else _] =>
              destruct (pystr_eqb k model_name)
          end;
          [ intros H; inversion H; subst; split; eexists; reflexivity | ]).
  discriminate.
Qed.

Lemma download_model_total :
  forall (World Path : Type) (h : host World Path) (this : downloader Path)
         (model_name : pystr) (force : bool) (s : dstate World Path) (found : bool),
    (forall entry,
       lookup model_name (models_config this) = Some entry ->
       (exists size, subscript entry (py "size") = Ok size)
       /\ (exists description, subscript entry (py "description") = Ok description)) ->
    path_exists h (joinpath h (models_dir this) model_name) (world s) = Ok found ->
    exists b s', download_model h this model_name force s = (Ok b, s').
Proof.
  intros World Path h this model_name force s found Hentry Hfound.
  unfold download_model.
  destruct (lookup model_name (models_config this)) as [entry|].
  - destruct (Hentry entry eq_refl) as [[size Hsize] [description Hdesc]].
    unfold bind at 1. unfold get_world at 1.
    unfold bind at 1. unfold call at 1. rewrite Hfound.
    destruct (found && negb force).
    + eexists. eexists. reflexivity.
    + unfold bind at 1. unfold call at 1. rewrite Hsize.
      unfold bind at 1. unfold dl_log at 1.
      unfold bind at 1. unfold call at 1. rewrite Hdesc.
      unfold bind at 1. unfold dl_log at 1.
      apply try_all_returns.
      intros e s'. eexists. eexists. reflexivity.
  - eexists. eexists. reflexivity.
Qed.

(** [download_model] lets one exception through: that of its own check
    [model_path.exists()], which stands before the [try] and reaches the
    caller with nothing logged and the machine untouched.  Once that check
    returns, an entry that has a size and a description, as every entry of
    the built-in table has, never raises: a failure of [git], of the
    verification, of the network or of writing a file, whatever exception
    it is, comes back as a boolean. *)
Theorem download_model_returns_a_boolean :
  forall (World Path : Type) (h : host World Path) (this : downloader Path)
         (model_name : pystr) (force : bool) (s : dstate World Path),
    (forall entry,
       lookup model_name (models_config this) = Some entry ->
       (exists size, subscript entry (py "size") = Ok size)
       /\ (exists description, subscript entry (py "description") = Ok description)) ->
    (forall found,
       path_exists h (joinpath h (models_dir this) model_name) (world s) = Ok found ->
       exists b s', download_model h this model_name force s = (Ok b, s'))
    /\ (forall entry e,
          lookup model_name (models_config this) = Some entry ->
          path_exists h (joinpath h (models_dir this) model_name) (world s) = Raise e ->
          download_model h this model_name force s = (Raise e, s)).
Proof.
  intros World Path h this model_name force s Hentry. split.
  - intros found Hfound.
    apply (@download_model_total World Path h this model_name force s found Hentry Hfound).
  - intros entry e Hlookup Hraise.
    unfold download_model. rewrite Hlookup.
    unfold bind, get_world, call. rewrite Hraise. reflexivity.
Qed.

Lemma download_model_returns_a_boolean_witness :
  exists b s',
    download_model toy_host toy_downloader (py "legal-bert-base") true toy_start = (Ok b, s').
Proof.
  destruct (@download_model_returns_a_boolean (list pystr) pystr toy_host toy_downloader
              (py "legal-bert-base") true toy_start) as [H _].
  - intros entry H. apply (default_entries_have_size_and_description _ H).
  - apply (H false). reflexivity.
Defined.

(** The three existence checks of the verification only log. *)
Lemma required_files_only_warn {World Path} (h : host World Path) (model_path : Path)
    (files : list pystr) (s : dstate World Path) :
  (forall file_name, In file_name files ->
     exists found, path_exists h (joinpath h model_path file_name) (world s) = Ok found) ->
  exists lg,
    for_each files
      (fun file_name =>
         w <- get_world ;;
         found <- call (path_exists h (joinpath h model_path file_name) w) ;;
         if found
         then ret tt
         else dl_log WARNING (DlMissingFile file_name)) s =
    (Ok tt, {| world := world s; dlog := lg |}).
Proof.
  revert s. induction files as [|file files IH]; intros s Hfound; simpl.
  - exists (dlog s). destruct s. reflexivity.
  - destruct (Hfound file (or_introl eq_refl)) as [found Hfile].
    unfold bind at 1. unfold bind at 1. unfold get_world at 1.
    unfold bind at 1. unfold call at 1. rewrite Hfile.
    destruct found.
    + unfold ret at 1. apply IH. intros f Hf. apply Hfound. right. exact Hf.
    + unfold dl_log at 1.
      destruct (IH {| world := world s;
                      dlog := dlog s ++ [(WARNING, DlMissingFile file)] |}) as [lg H].
      { intros f Hf. apply Hfound. right. exact Hf. }
      exists lg. exact H.
Qed.

Lemma verify_model_integrity_result {World Path} (h : host World Path) (model_path : Path)
    (s : dstate World Path) :
  (forall file_name, In file_name required_files ->
     exists found, path_exists h (joinpath h model_path file_name) (world s) = Ok found) ->
  exists lg,
    _verify_model_integrity h model_path s =
      (any_iterdir h model_path (world s), {| world := world s; dlog := lg |}).
Proof.
  intros Hfound. unfold _verify_model_integrity.
  destruct (required_files_only_warn h model_path required_files s Hfound) as [lg H].
  unfold bind at 1. rewrite H.
  unfold bind, get_world, call. cbn [world].
  destruct (any_iterdir h model_path (world s)) as [[|]|e].
  - exists lg. reflexivity.
  - eexists. reflexivity.
  - exists lg. reflexivity.
Qed.

(** A cloned model passes the verification exactly when its directory is
    not empty.  For an entry hosted on huggingface.co whose clone succeeds,
    the download returns what [any(model_path.iterdir())] gives on the
    machine the clone left, whichever of the three required files the
    existence checks find: a missing file is only a warning. *)
Theorem cloned_model_is_verified_by_nonemptiness :
  forall (World Path : Type) (h : host World Path) (model_name : pystr)
         (config : value) (model_path : Path) (s : dstate World Path)
         (url : value) (w' : World) (nonempty : bool),
    subscript config (py "url") = Ok url ->
    contains (py "huggingface.co") url = Ok true ->
    git_clone h url model_path (world s) = (Ok tt, w') ->
    (forall file_name, In file_name required_files ->
       exists found, path_exists h (joinpath h model_path file_name) w' = Ok found) ->
    any_iterdir h model_path w' = Ok nonempty ->
    fst (_download_huggingface_model h model_name config model_path s) = Ok nonempty
    /\ world (snd (_download_huggingface_model h model_name config model_path s)) = w'.
Proof.
  intros World Path h model_name config model_path s url w' nonempty
    Hurl Hhub Hclone Hfiles Hany.
  assert (Hrun : exists lg,
            _download_huggingface_model h model_name config model_path s =
              (Ok nonempty, {| world := w'; dlog := lg |})).
  { destruct (verify_model_integrity_result h model_path
                {| world := w'; dlog := dlog s |} Hfiles) as [lg Hv].
    cbn [world] in Hv. rewrite Hany in Hv.
    destruct nonempty; eexists;
      unfold _download_huggingface_model, try_except;
      (unfold bind at 1; unfold call at 1; rewrite Hurl);
      (unfold bind at 1; unfold call at 1; rewrite Hhub);
      (unfold bind at 1; unfold call at 1);
      (unfold bind at 1; unfold run_host at 1; rewrite Hclone);
      (unfold bind at 1; rewrite Hv); reflexivity. }
  destruct Hrun as [lg Hrun]. rewrite Hrun. split; reflexivity.
Qed.

Lemma cloned_model_is_verified_by_nonemptiness_witness :
  fst (_download_huggingface_model toy_host (py "legal-bert-base")
         (VDict [(py "url", VStr (py "https://huggingface.co/nlpaueb/legal-bert-base-uncased"))])
         (py "models/legal-bert-base") toy_start) = Ok true.
Proof.
  apply (@cloned_model_is_verified_by_nonemptiness (list pystr) pystr toy_host
           (py "legal-bert-base")
           (VDict [(py "url", VStr (py "https://huggingface.co/nlpaueb/legal-bert-base-uncased"))])
           (py "models/legal-bert-base") toy_start
           (VStr (py "https://huggingface.co/nlpaueb/legal-bert-base-uncased"))
           [ toy_join (py "models/legal-bert-base") (py "README.md");
             py "models/legal-bert-base"; py "models" ]
           true); try reflexivity.
  intros file_name _. eexists. reflexivity.
Defined.

(** A clone that fails never escapes [download_model].  When [git] exits
    with an error, [_download_huggingface_model] logs it and returns
    [False]; any other exception of the clone (no [git] on the machine, a
    url that is not a string) leaves [_download_huggingface_model] as it
    is.  Either way [download_model] returns [False] on the machine the
    clone left. *)
Theorem failed_clone_becomes_false :
  forall (World Path : Type) (h : host World Path) (this : downloader Path)
         (model_name : pystr) (force : bool) (s : dstate World Path)
         (entry size description api_based url : value) (e : exn) (w' : World)
         (found : bool),
    lookup model_name (models_config this) = Some entry ->
    path_exists h (joinpath h (models_dir this) model_name) (world s) = Ok found ->
    found && negb force = false ->
    subscript entry (py "size") = Ok size ->
    subscript entry (py "description") = Ok description ->
    dict_get entry (py "api_based") (VBool false) = Ok api_based ->
    truthy api_based = false ->
    subscript entry (py "url") = Ok url ->
    contains (py "huggingface.co") url = Ok true ->
    git_clone h url (joinpath h (models_dir this) model_name) (world s) = (Raise e, w') ->
    fst (download_model h this model_name force s) = Ok false
    /\ world (snd (download_model h this model_name force s)) = w'
    /\ (is_CalledProcessError e = true ->
        _download_huggingface_model h model_name entry
          (joinpath h (models_dir this) model_name) s =
          (Ok false, {| world := w'; dlog := dlog s ++ [(ERROR, DlGitCloneFailed e)] |}))
    /\ (is_CalledProcessError e = false ->
        _download_huggingface_model h model_name entry
          (joinpath h (models_dir this) model_name) s =
          (Raise e, {| world := w'; dlog := dlog s |})).
Proof.
  intros World Path h this model_name force s entry size description api_based url e w'
    found Hentry Hfound Hskip Hsize Hdesc Hapi Hfalsy Hurl Hhub Hclone.
  assert (Hhf : forall s0 : dstate World Path,
            world s0 = world s ->
            _download_huggingface_model h model_name entry
              (joinpath h (models_dir this) model_name) s0 =
              if is_CalledProcessError e
              then (Ok false, {| world := w'; dlog := dlog s0 ++ [(ERROR, DlGitCloneFailed e)] |})
              else (Raise e, {| world := w'; dlog := dlog s0 |})).
  { intros s0 Hw. unfold _download_huggingface_model, try_except.
    unfold bind at 1. unfold call at 1. rewrite Hurl.
    unfold bind at 1. unfold call at 1. rewrite Hhub.
    unfold bind at 1. unfold call at 1.
    unfold bind at 1. unfold run_host at 1. rewrite Hw, Hclone.
    destruct (is_CalledProcessError e); reflexivity. }
  assert (Hdm : exists lg,
            download_model h this model_name force s =
              (Ok false, {| world := w'; dlog := lg |})).
  { destruct (is_CalledProcessError e) eqn:Hc; eexists;
      unfold download_model; rewrite Hentry;
      (unfold bind at 1; unfold get_world at 1);
      (unfold bind at 1; unfold call at 1; rewrite Hfound, Hskip);
      (unfold bind at 1; unfold call at 1; rewrite Hsize);
      (unfold bind at 1; unfold dl_log at 1);
      (unfold bind at 1; unfold call at 1; rewrite Hdesc);
      (unfold bind at 1; unfold dl_log at 1);
      unfold try_except;
      (unfold bind at 1; unfold call at 1; rewrite Hapi, Hfalsy);
      rewrite Hhf by reflexivity; reflexivity. }
  destruct Hdm as [lg Hdm]. rewrite Hdm.
  split; [reflexivity|]. split; [reflexivity|]. split.
  - intros Hc. rewrite (Hhf s eq_refl), Hc. reflexivity.
  - intros Hc. rewrite (Hhf s eq_refl), Hc. reflexivity.
Qed.

Lemma failed_clone_becomes_false_witness :
  fst (download_model toy_host toy_downloader (py "legal-bert-base") true
         {| world := [py "models/legal-bert-base"; py "models"]; dlog := [] |}) = Ok false.
Proof.
  apply (@failed_clone_becomes_false (list pystr) pystr toy_host toy_downloader
           (py "legal-bert-base") true
           {| world := [py "models/legal-bert-base"; py "models"]; dlog := [] |}
           (VDict [
              (py "url", VStr (py "https://huggingface.co/nlpaueb/legal-bert-base-uncased"));
              (py "type", VStr (py "embeddings"));
              (py "size", VStr (py "440 MB"));
              (py "description", VStr (py "Legal domain-specific BERT embeddings"));
              (py "priority", VStr (py "high"));
              (py "legal_optimized", VBool true) ])
           (VStr (py "440 MB"))
           (VStr (py "Legal domain-specific BERT embeddings"))
           (VBool false)
           (VStr (py "https://huggingface.co/nlpaueb/legal-bert-base-uncased"))
           CalledProcessError
           [py "models/legal-bert-base"; py "models"] true); reflexivity.
Defined.

(** ** The datasets *)

Lemma download_dataset_step {World Path} (h : host World Path) (this : downloader Path)
    (dataset : pystr) (s : dstate World Path) (c : nat) (config size url : value) :
  lookup dataset (legal_documents_config this) = Some config ->
  subscript config (py "size") = Ok size ->
  subscript config (py "url") = Ok url ->
  exists lg,
    download_dataset h this dataset (s, c) =
      (Ok tt,
       ({| world :=
             snd (git_clone h url
                    (joinpath h (joinpath h (models_dir this) (py "legal_documents")) dataset)
                    (world s));
           dlog := lg |},
        match fst (git_clone h url
                     (joinpath h (joinpath h (models_dir this) (py "legal_documents")) dataset)
                     (world s)) with
        | Ok _ => S c
        | Raise _ => c
        end)).
Proof.
  intros Hlookup Hsize Hurl.
  unfold download_dataset.
  unfold bind at 1. unfold call at 1. unfold subscript at 1. rewrite Hlookup.
  unfold bind at 1. unfold call at 1. rewrite Hsize.
  unfold bind at 1. unfold lift_local at 1. unfold dl_log at 1. cbn [fst snd].
  unfold try_except.
  unfold bind at 1. unfold call at 1. rewrite Hurl.
  unfold bind at 1. unfold lift_local at 1.
  unfold _download_huggingface_dataset, try_except.
  unfold bind at 1. unfold run_host at 1. cbn [fst snd world dlog].
  destruct (git_clone h url
              (joinpath h (joinpath h (models_dir this) (py "legal_documents")) dataset)
              (world s)) as [[[]|e] w1].
  - eexists. reflexivity.
  - destruct (is_CalledProcessError e); eexists; reflexivity.
Qed.

Lemma download_datasets_loop {World Path} (h : host World Path) (this : downloader Path)
    (names : list pystr) :
  Forall (dataset_ready this) names ->
  forall (s : dstate World Path) (c : nat),
  exists lg,
    for_each names (download_dataset h this) (s, c) =
      (Ok tt,
       ({| world := snd (clone_datasets h this names (world s)); dlog := lg |},
        c + fst (clone_datasets h this names (world s)))).
Proof.
  induction 1 as [|dataset names (config & size & url & Hlookup & Hsize & Hurl) _ IH];
    intros s c.
  - exists (dlog s). simpl. rewrite Nat.add_0_r. destruct s. reflexivity.
  - destruct (download_dataset_step h this dataset s c Hlookup Hsize Hurl) as [lg Hstep].
    cbn [for_each clone_datasets]. unfold bind at 1. rewrite Hstep.
    rewrite Hlookup, Hurl.
    destruct (git_clone h url
                (joinpath h (joinpath h (models_dir this) (py "legal_documents")) dataset)
                (world s)) as [[[]|e] w1]; cbn [fst snd].
    + destruct (IH {| world := w1; dlog := lg |} (S c)) as [lg' Hrest].
      exists lg'. rewrite Hrest. cbn [world]. f_equal. f_equal. lia.
    + destruct (IH {| world := w1; dlog := lg |} c) as [lg' Hrest].
      exists lg'. rewrite Hrest. reflexivity.
Qed.

(** [download_legal_documents] tries every dataset it was asked for: a
    clone that fails, whatever it raises, does not stop the clones after
    it.  For datasets whose entries have a size and a url, the machine at
    the end is the one the clones leave when run one after the other, and
    the answer is [True] exactly when every clone succeeded; a name that is
    neither "all" nor in the table gives [False] and touches nothing. *)
Theorem download_legal_documents_tries_every_dataset :
  forall (World Path : Type) (h : host World Path) (this : downloader Path)
         (dataset_name : pystr) (s : dstate World Path),
    (datasets_to_download this dataset_name <> [] ->
     Forall (dataset_ready this) (datasets_to_download this dataset_name) ->
     fst (download_legal_documents h this dataset_name s) =
       Ok (Nat.eqb
             (fst (clone_datasets h this (datasets_to_download this dataset_name) (world s)))
             (length (datasets_to_download this dataset_name)))
     /\ world (snd (download_legal_documents h this dataset_name s)) =
          snd (clone_datasets h this (datasets_to_download this dataset_name) (world s)))
    /\ (datasets_to_download this dataset_name = [] ->
        download_legal_documents h this dataset_name s =
          (Ok false,
           {| world := world s;
              dlog := dlog s ++ [(ERROR, DlDatasetNotFound dataset_name)] |})).
Proof.
  intros World Path h this dataset_name s. split.
  - intros Hne Hready.
    destruct (download_datasets_loop h Hready s 0) as [lg Hloop].
    assert (Hrun : exists lg',
              download_legal_documents h this dataset_name s =
                (Ok (Nat.eqb
                       (fst (clone_datasets h this
                               (datasets_to_download this dataset_name) (world s)))
                       (length (datasets_to_download this dataset_name))),
                 {| world := snd (clone_datasets h this
                                    (datasets_to_download this dataset_name) (world s));
                    dlog := lg' |})).
    { unfold download_legal_documents.
      destruct (datasets_to_download this dataset_name) as [|d ds] eqn:Hds;
        [contradiction|].
      eexists. unfold with_local. unfold bind at 1. rewrite Hloop.
      unfold bind, get_local, lift_local, dl_log, ret. cbn [fst snd world dlog].
      reflexivity. }
    destruct Hrun as [lg' Hrun]. rewrite Hrun. split; reflexivity.
  - intros Hempty. unfold download_legal_documents. rewrite Hempty. reflexivity.
Qed.

Lemma default_datasets_ready (dir : pystr) :
  Forall (dataset_ready
            {| models_dir := dir; models_config := default_models_config;
               legal_documents_config := default_legal_documents_config |})
    (map fst default_legal_documents_config).
Proof.
  repeat constructor; eexists; eexists; eexists; repeat split; reflexivity.
Qed.

Lemma download_legal_documents_tries_every_dataset_witness :
  fst (download_legal_documents toy_host toy_downloader (py "all")
         {| world := [ toy_join (toy_join (py "models") (py "legal_documents"))
                         (py "state_law_database");
                       py "models" ];
            dlog := [] |}) =
    Ok (Nat.eqb
          (fst (clone_datasets toy_host toy_downloader
                  (datasets_to_download toy_downloader (py "all"))
                  [ toy_join (toy_join (py "models") (py "legal_documents"))
                      (py "state_law_database");
                    py "models" ]))
          (length (datasets_to_download toy_downloader (py "all")))).
Proof.
  destruct (download_legal_documents_tries_every_dataset toy_host toy_downloader (py "all")
              {| world := [ toy_join (toy_join (py "models") (py "legal_documents"))
                              (py "state_law_database");
                            py "models" ];
                 dlog := [] |}) as [H _].
  apply H.
  - discriminate.
  - apply (default_datasets_ready (py "models")).
Defined.

(** On the small machine, with one dataset directory already there: its
    clone fails, the three others are still cloned, and the answer is
    [False]. *)
Example one_failed_dataset_does_not_stop_the_rest :
  let out :=
    download_legal_documents toy_host toy_downloader (py "all")
      {| world := [ toy_join (toy_join (py "models") (py "legal_documents"))
                      (py "state_law_database");
                    py "models" ];
         dlog := [] |} in
  fst out = Ok false
  /\ map (fun name =>
            toy_exists (toy_join (toy_join (py "models") (py "legal_documents")) name)
              (world (snd out)))
       (map fst default_legal_documents_config) = [true; true; true; true]
  /\ last (dlog (snd out)) (INFO, DlSettingUp) = (INFO, DlDatasetsCount 3 4).
Proof.
  vm_compute. repeat split.
Qed.

(** ** API-based models and the setup *)

Lemma setup_api_model_raises {World Path} (h : host World Path) (this : downloader Path)
    (model_name : pystr) (config : value) (s : dstate World Path) (e : exn) :
  Path_ctime h (world s) = Raise e ->
  exists e', _setup_api_model h this model_name config s = (Raise e', s).
Proof.
  intros Hctime. unfold _setup_api_model, bind, call, get_world.
  destruct (subscript config (py "url")) as [endpoint|e1]; [|exists e1; reflexivity].
  destruct (subscript config (py "type")) as [type|e2]; [|exists e2; reflexivity].
  destruct (subscript config (py "description")) as [description|e3];
    [|exists e3; reflexivity].
  rewrite Hctime. exists e. reflexivity.
Qed.

(** An API-based model is set up only if [str(Path().ctime())] returns.
    When that expression raises, as it does since [pathlib] paths have no
    [ctime], [_setup_api_model] raises before it writes its configuration
    file, and [download_model] of an API-based entry logs the failure and
    returns [False] with the machine untouched. *)
Theorem api_model_setup_needs_ctime :
  forall (World Path : Type) (h : host World Path) (this : downloader Path)
         (model_name : pystr) (force : bool) (s : dstate World Path)
         (entry size description api_based : value) (e : exn) (found : bool),
    lookup model_name (models_config this) = Some entry ->
    path_exists h (joinpath h (models_dir this) model_name) (world s) = Ok found ->
    found && negb force = false ->
    subscript entry (py "size") = Ok size ->
    subscript entry (py "description") = Ok description ->
    dict_get entry (py "api_based") (VBool false) = Ok api_based ->
    truthy api_based = true ->
    Path_ctime h (world s) = Raise e ->
    fst (download_model h this model_name force s) = Ok false
    /\ world (snd (download_model h this model_name force s)) = world s
    /\ exists e', _setup_api_model h this model_name entry s = (Raise e', s).
Proof.
  intros World Path h this model_name force s entry size description api_based e found
    Hentry Hfound Hskip Hsize Hdesc Hapi Htrue Hctime.
  split; [|split]; [| |apply (setup_api_model_raises h this model_name entry s Hctime)].
  - destruct (setup_api_model_raises h this model_name entry
                {| world := world s;
                   dlog := (dlog s ++ [(INFO, DlDownloading model_name size)])
                           ++ [(INFO, DlDescription description)] |} Hctime) as [e' He'].
    unfold download_model. rewrite Hentry.
    unfold bind at 1. unfold get_world at 1.
    unfold bind at 1. unfold call at 1. rewrite Hfound, Hskip.
    unfold bind at 1. unfold call at 1. rewrite Hsize.
    unfold bind at 1. unfold dl_log at 1.
    unfold bind at 1. unfold call at 1. rewrite Hdesc.
    unfold bind at 1. unfold dl_log at 1.
    unfold try_except.
    unfold bind at 1. unfold call at 1. rewrite Hapi, Htrue.
    cbn [world dlog]. rewrite He'. reflexivity.
  - destruct (setup_api_model_raises h this model_name entry
                {| world := world s;
                   dlog := (dlog s ++ [(INFO, DlDownloading model_name size)])
                           ++ [(INFO, DlDescription description)] |} Hctime) as [e' He'].
    unfold download_model. rewrite Hentry.
    unfold bind at 1. unfold get_world at 1.
    unfold bind at 1. unfold call at 1. rewrite Hfound, Hskip.
    unfold bind at 1. unfold call at 1. rewrite Hsize.
    unfold bind at 1. unfold dl_log at 1.
    unfold bind at 1. unfold call at 1. rewrite Hdesc.
    unfold bind at 1. unfold dl_log at 1.
    unfold try_except.
    unfold bind at 1. unfold call at 1. rewrite Hapi, Htrue.
    cbn [world dlog]. rewrite He'. reflexivity.
Qed.

Lemma api_model_setup_needs_ctime_witness :
  fst (download_model toy_host toy_downloader (py "nvidia-flamingo3") false toy_start) =
    Ok false
  /\ world (snd (download_model toy_host toy_downloader (py "nvidia-flamingo3") false
                   toy_start)) = world toy_start.
Proof.
  destruct (@api_model_setup_needs_ctime (list pystr) pystr toy_host toy_downloader
              (py "nvidia-flamingo3") false toy_start
              (VDict [
                 (py "url", VStr (py "https://api.nvidia.com/v1/models/flamingo-3"));
                 (py "type", VStr (py "audio_enhancement"));
                 (py "size", VStr (py "1.2 GB"));
                 (py "description", VStr (py "Audio quality enhancement for poor recordings"));
                 (py "priority", VStr (py "medium"));
                 (py "api_based", VBool true) ])
              (VStr (py "1.2 GB"))
              (VStr (py "Audio quality enhancement for poor recordings"))
              (VBool true) AttributeError false
              eq_refl eq_refl eq_refl eq_refl eq_refl eq_refl eq_refl eq_refl)
    as (H1 & H2 & _).
  split; assumption.
Defined.

Lemma for_each_total {St A} (body : A -> M St unit) (xs : list A) :
  (forall x s, exists s', body x s = (Ok tt, s')) ->
  forall s, exists s', for_each xs body s = (Ok tt, s').
Proof.
  intros Hbody. induction xs as [|x xs IH]; intros s; simpl.
  - exists s. reflexivity.
  - destruct (Hbody x s) as [s1 H1]. unfold bind. rewrite H1. apply IH.
Qed.

Lemma download_essential_total {World Path} (h : host World Path) (this : downloader Path)
    (model : pystr) (sc : dstate World Path * nat) :
  models_config this = default_models_config ->
  (forall p w, exists found, path_exists h p w = Ok found) ->
  exists sc', download_essential h this model sc = (Ok tt, sc').
Proof.
  intros Hcfg Hexists. destruct sc as [s c].
  unfold download_essential.
  unfold bind at 1. unfold lift_local at 1. unfold dl_log at 1. cbn [fst snd].
  destruct (Hexists (joinpath h (models_dir this) model) (world s)) as [found Hfound].
  destruct (@download_model_total World Path h this model false
              {| world := world s; dlog := dlog s ++ [(INFO, DlEssential model)] |} found)
    as (b & s' & Hrun).
  { intros entry H. rewrite Hcfg in H.
    apply (default_entries_have_size_and_description _ H). }
  { exact Hfound. }
  unfold bind at 1. unfold lift_local at 1. cbn [fst snd]. rewrite Hrun.
  destruct b; eexists; reflexivity.
Qed.

Lemma download_optional_total {World Path} (h : host World Path) (this : downloader Path)
    (model : pystr) (sc : dstate World Path * nat) :
  models_config this = default_models_config ->
  (forall p w, exists found, path_exists h p w = Ok found) ->
  exists sc', download_optional h this model sc = (Ok tt, sc').
Proof.
  intros Hcfg Hexists. destruct sc as [s c].
  unfold download_optional.
  unfold bind at 1. unfold lift_local at 1. unfold dl_log at 1. cbn [fst snd].
  destruct (Hexists (joinpath h (models_dir this) model) (world s)) as [found Hfound].
  destruct (@download_model_total World Path h this model false
              {| world := world s; dlog := dlog s ++ [(INFO, DlOptional model)] |} found)
    as (b & s' & Hrun).
  { intros entry H. rewrite Hcfg in H.
    apply (default_entries_have_size_and_description _ H). }
  { exact Hfound. }
  unfold bind at 1. unfold lift_local at 1. cbn [fst snd]. rewrite Hrun.
  eexists. reflexivity.
Qed.

Lemma download_legal_documents_total {World Path} (h : host World Path)
    (this : downloader Path) (dataset_name : pystr) (s : dstate World Path) :
  Forall (dataset_ready this) (datasets_to_download this dataset_name) ->
  exists b s', download_legal_documents h this dataset_name s = (Ok b, s').
Proof.
  intros Hready. unfold download_legal_documents.
  destruct (datasets_to_download this dataset_name) as [|d ds] eqn:Hds.
  - eexists. eexists. reflexivity.
  - destruct (download_datasets_loop h Hready s 0) as [lg Hloop].
    unfold with_local. unfold bind at 1. rewrite Hloop.
    eexists. eexists. reflexivity.
Qed.

Lemma default_dataset_names_ready {Path} (this : downloader Path) (name : pystr) :
  legal_documents_config this = default_legal_documents_config ->
  Forall (dataset_ready this) (datasets_to_download this name).
Proof.
  intros Hdocs. unfold datasets_to_download. rewrite Hdocs.
  assert (Hall : Forall (dataset_ready this) (map fst default_legal_documents_config)).
  { unfold dataset_ready. rewrite Hdocs.
    repeat constructor; eexists; eexists; eexists; repeat split; reflexivity. }
  destruct (pystr_eqb name (py "all")); [exact Hall|].
  destruct (lookup name default_legal_documents_config) as [entry|] eqn:Hl;
    [|constructor].
  constructor; [|constructor].
  unfold dataset_ready. rewrite Hdocs, Hl.
  revert Hl. unfold default_legal_documents_config. cbn [lookup].
  repeat (match goal with
          | |- context [if pystr_eqb ?k name then _ else _] =>
              destruct (pystr_eqb k name)
          end;
          [ intros H; inversion H; subst;
            eexists; eexists; eexists; repeat split; reflexivity | ]).
  discriminate.
Qed.

(** With the tables of [__init__], [setup_legal_rag_pipeline] never returns
    when [str(Path().ctime())] raises, as it does since [pathlib] paths have
    no [ctime].  When the existence checks return, the five essential
    models, the three optional models and the two datasets are downloaded
    first, each call returning whatever its outcome; then writing the
    summary raises that exception out of the method, and the machine and the
    log are exactly as the last dataset download left them: no summary file
    is written and neither the success nor the partial-setup record is
    logged. *)
Theorem setup_raises_when_ctime_raises :
  forall (World Path : Type) (h : host World Path) (this : downloader Path)
         (s : dstate World Path) (e : exn),
    models_config this = default_models_config ->
    legal_documents_config this = default_legal_documents_config ->
    (forall p w, exists found, path_exists h p w = Ok found) ->
    (forall w, Path_ctime h w = Raise e) ->
    exists (s1 s2 s3 s4 : dstate World Path) (c1 c2 : nat) (b3 b4 : bool),
      for_each essential_models (download_essential h this)
        ({| world := world s; dlog := dlog s ++ [(INFO, DlSettingUp)] |}, 0) =
        (Ok tt, (s1, c1))
      /\ for_each optional_models (download_optional h this) (s1, c1) = (Ok tt, (s2, c2))
      /\ download_legal_documents h this (py "multilingual_legal_corpus")
           {| world := world s2; dlog := dlog s2 ++ [(INFO, DlDatabases)] |} = (Ok b3, s3)
      /\ download_legal_documents h this (py "us_federal_law") s3 = (Ok b4, s4)
      /\ setup_legal_rag_pipeline h this s = (Raise e, s4).
Proof.
  intros World Path h this s e Hmodels Hdocs Hexists Hctime.
  destruct (for_each_total (download_essential h this) essential_models
              (fun x sc => @download_essential_total World Path h this x sc Hmodels Hexists)
              ({| world := world s; dlog := dlog s ++ [(INFO, DlSettingUp)] |}, 0))
    as [[s1 c1] H1].
  destruct (for_each_total (download_optional h this) optional_models
              (fun x sc => @download_optional_total World Path h this x sc Hmodels Hexists)
              (s1, c1))
    as [[s2 c2] H2].
  destruct (@download_legal_documents_total World Path h this
              (py "multilingual_legal_corpus")
              {| world := world s2; dlog := dlog s2 ++ [(INFO, DlDatabases)] |}
              (default_dataset_names_ready this (py "multilingual_legal_corpus") Hdocs))
    as (b3 & s3 & H3).
  destruct (@download_legal_documents_total World Path h this (py "us_federal_law") s3
              (default_dataset_names_ready this (py "us_federal_law") Hdocs))
    as (b4 & s4 & H4).
  exists s1, s2, s3, s4, c1, c2, b3, b4.
  split; [exact H1|]. split; [exact H2|]. split; [exact H3|]. split; [exact H4|].
  unfold setup_legal_rag_pipeline.
  unfold bind at 1. unfold dl_log at 1.
  unfold with_local.
  unfold bind at 1. rewrite H1.
  unfold bind at 1. rewrite H2.
  unfold bind at 1. unfold lift_local at 1. unfold dl_log at 1. cbn [fst snd].
  unfold bind at 1. unfold lift_local at 1. cbn [fst snd]. rewrite H3.
  unfold bind at 1. unfold lift_local at 1. cbn [fst snd]. rewrite H4.
  unfold bind at 1. unfold lift_local at 1. cbn [fst snd].
  unfold _create_setup_summary.
  unfold bind at 1. unfold get_world at 1.
  unfold bind at 1. unfold call at 1. rewrite Hctime. reflexivity.
Qed.

Lemma setup_raises_when_ctime_raises_witness :
  exists (s1 s2 s3 s4 : dstate (list pystr) pystr) (c1 c2 : nat) (b3 b4 : bool),
    for_each essential_models (download_essential toy_host toy_downloader)
      ({| world := world toy_start; dlog := dlog toy_start ++ [(INFO, DlSettingUp)] |}, 0) =
      (Ok tt, (s1, c1))
    /\ for_each optional_models (download_optional toy_host toy_downloader) (s1, c1) =
         (Ok tt, (s2, c2))
    /\ download_legal_documents toy_host toy_downloader (py "multilingual_legal_corpus")
         {| world := world s2; dlog := dlog s2 ++ [(INFO, DlDatabases)] |} = (Ok b3, s3)
    /\ download_legal_documents toy_host toy_downloader (py "us_federal_law") s3 = (Ok b4, s4)
    /\ setup_legal_rag_pipeline toy_host toy_downloader toy_start = (Raise AttributeError, s4).
Proof.
  apply (@setup_raises_when_ctime_raises (list pystr) pystr toy_host toy_downloader
           toy_start AttributeError); try reflexivity.
  intros p w. eexists. reflexivity.
Defined.

(** On the small machine the setup downloads the seven models hosted on
    huggingface.co and the two datasets, fails to set up the API-based
    model, and then raises: the summary file is not there. *)
Example setup_on_the_small_machine :
  let out := setup_legal_rag_pipeline toy_host toy_downloader toy_start in
  fst out = Raise AttributeError
  /\ map (fun name => toy_exists (toy_join (py "models") name) (world (snd out)))
       (map fst default_models_config) =
       [true; false; true; true; true; true; true; true]
  /\ map (fun name =>
            toy_exists (toy_join (toy_join (py "models") (py "legal_documents")) name)
              (world (snd out)))
       (map fst default_legal_documents_config) = [true; false; true; false]
  /\ toy_exists (toy_join (py "models") (py "setup_summary.json")) (world (snd out)) = false
  /\ toy_exists (toy_join (py "models") (py "nvidia-flamingo3_config.json"))
       (world (snd out)) = false.
Proof.
  vm_compute. repeat split.
Qed.

(** With the table of [__init__], [download_model] never downloads from a
    direct URL: every entry is API-based or hosted on huggingface.co, so
    what the direct download would do has no influence on any call. *)
Theorem builtin_models_never_use_direct_download :
  forall (World Path : Type) (h : host World Path)
         (dd : value -> Path -> World -> result unit * World)
         (this : downloader Path) (model_name : pystr) (force : bool)
         (s : dstate World Path),
    models_config this = default_models_config ->
    download_model (with_direct_download h dd) this model_name force s =
    download_model h this model_name force s.
Proof.
  intros World Path h dd this model_name force s Hcfg.
  unfold download_model. rewrite Hcfg.
  unfold default_models_config. cbn [lookup].
  repeat (match goal with
          | |- context [if pystr_eqb ?k model_name then _ else _] =>
              destruct (pystr_eqb k model_name); [reflexivity|]
          end).
  reflexivity.
Qed.

Lemma builtin_models_never_use_direct_download_witness :
  download_model
    (with_direct_download toy_host (fun _ _ w => (Raise (PyException "ConnectionError"), w)))
    toy_downloader (py "legal-longformer") false toy_start =
  download_model toy_host toy_downloader (py "legal-longformer") false toy_start.
Proof.
  apply (@builtin_models_never_use_direct_download (list pystr) pystr toy_host
           (fun _ _ w => (Raise (PyException "ConnectionError"), w))
           toy_downloader (py "legal-longformer") false toy_start).
  reflexivity.
Defined.
